(** * Safex front end: the session workflow of [frontend/src/app/page.tsx]

    The page component [Home] keeps thirteen [useState] cells and four
    asynchronous handlers that talk to the local service.  This development
    embeds the cells as a record, each handler as a computation over that
    record, and the browser's event loop as a transition system whose
    enabled events are read off the rendered page.

    Conventions of the embedding.
    - A JavaScript string is a [string]; each character is one code unit
      below 256.
    - The numbers the page handles (status codes, the fuzz time budget, line
      numbers, sizes) are integers: [nat] for a status, [Z] elsewhere.
    - An [async] handler runs without interruption until its [fetch]; what
      follows the [await] runs when the request settles.  Each such handler
      is therefore two definitions: [h] (up to the [fetch]) and [h_resumed]
      (from the settled request to the end, reading the body included).
    - [JSON.parse] and [Response.json] are library code: the parser is a
      parameter of the handlers, one per response interface, and a body that
      parses is taken to have the shape its TypeScript interface declares. *)

From Stdlib Require Import String Ascii List ZArith Bool Arith Lia.
From Stdlib Require Import DecimalString.
Import ListNotations.
Local Open Scope string_scope.
Local Open Scope bool_scope.

(** ** JavaScript strings *)

(** [a || b] on strings: the empty string is the only falsy one. *)
Definition or_else (a b : string) : string :=
  match a with
  | EmptyString => b
  | String _ _ => a
  end.

Infix "||'" := or_else (at level 50, left associativity).

(** Truthiness of a string, as in [if (!repoUrl)] and [{error && ...}]. *)
Definition truthy (a : string) : bool :=
  match a with
  | EmptyString => false
  | String _ _ => true
  end.

(** White space and line terminators among the code units below 256:
    TAB, LF, VT, FF, CR, SP and NBSP. *)
Definition isWhiteSpace (c : ascii) : bool :=
  let n := nat_of_ascii c in
  ((9 <=? n)%nat && (n <=? 13)%nat) || (n =? 32)%nat || (n =? 160)%nat.

Fixpoint trimStart (s : string) : string :=
  match s with
  | EmptyString => EmptyString
  | String c rest => if isWhiteSpace c then trimStart rest else s
  end.

Fixpoint trimEnd (s : string) : string :=
  match s with
  | EmptyString => EmptyString
  | String c rest =>
      match trimEnd rest with
      | EmptyString => if isWhiteSpace c then EmptyString else String c EmptyString
      | kept => String c kept
      end
  end.

(** [s.trim()] *)
Definition trim (s : string) : string := trimEnd (trimStart s).

(** [s.split(sep)] for a one-character separator: never the empty array. *)
Fixpoint split (sep : ascii) (s : string) : list string :=
  match s with
  | EmptyString => [EmptyString]
  | String c rest =>
      if Ascii.eqb c sep then EmptyString :: split sep rest
      else match split sep rest with
           | [] => [String c EmptyString]
           | seg :: segs => String c seg :: segs
           end
  end.

(** [parts.join(sep)] *)
Definition join (sep : ascii) (parts : list string) : string :=
  String.concat (String sep EmptyString) parts.

(** [parts.pop()], for the array that is left. *)
Definition pop (parts : list string) : list string := removelast parts.

(** Whether the code unit [c] occurs in [s]. *)
Fixpoint contains (c : ascii) (s : string) : bool :=
  match s with
  | EmptyString => false
  | String d rest => Ascii.eqb d c || contains c rest
  end.

(** A template literal's rendering of a non-negative integer. *)
Definition decimal (n : nat) : string := NilZero.string_of_uint (Nat.to_uint n).

(** ** The response interfaces of the service *)

Module GitHubRepo.
Record owner_t := { login : string; avatar_url : option string }.
Record t := {
  id : Z;
  name : string;
  full_name : string;
  description : option string;
  html_url : string;
  stargazers_count : Z;
  forks_count : Z;
  open_issues_count : Z;
  owner : owner_t;
  language : option string;
  created_at : string;
  updated_at : string }.
End GitHubRepo.

Module RepoIngestionResponse.
Record t := {
  success : bool;
  message : string;
  repo : option GitHubRepo.t;
  is_anchor_project : option bool }.
End RepoIngestionResponse.

Module GitHubContent.
Record t := {
  name : string;
  path : string;
  content_type : string;
  size : option Z;
  html_url : string;
  download_url : option string;
  content : option string;
  encoding : option string;
  sha : string;
  url : string }.
End GitHubContent.

Inductive Severity := low | medium | high.

Module CodeBug.
(** [fix] is a keyword here: the field is [fix_]. *)
Record t := { bug : string; line : Z; severity : Severity; fix_ : string }.
End CodeBug.

Module CodeAnalysisResponse.
Record t := {
  success : bool;
  message : string;
  bugs : option (list CodeBug.t) }.
End CodeAnalysisResponse.

Module FuzzingResponse.
Record t := {
  success : bool;
  message : string;
  errors : option (list string);
  test_file : option string;
  execution_time_ms : option Z }.
End FuzzingResponse.

Module RepoContentsResponse.
Record t := {
  success : bool;
  message : string;
  contents : option (list GitHubContent.t);
  file_content : option GitHubContent.t;
  repo_url : string;
  path : string }.
End RepoContentsResponse.

(** An optional boolean in a condition: [undefined] and [false] are falsy. *)
Definition holds (b : option bool) : bool :=
  match b with
  | Some true => true
  | _ => false
  end.

(** ** The transport *)

(** What the page posts to [http://127.0.0.1:8080/api/...]: the endpoint and
    the fields of the JSON body ([path: path || undefined] drops the key for
    the root). *)
Inductive Request :=
| ingest_repo (repo_url : string)
| analyze_code (repo_url : string)
| fuzz_test (repo_url instruction_name : string) (timeout_seconds : Z)
| repo_contents (repo_url : string) (path : option string).

Module Response.
Record t := { status : nat; text : string }.
(** [response.ok]: the status is in the range 200-299. *)
Definition ok (r : t) : bool := (200 <=? status r)%nat && (status r <=? 299)%nat.
End Response.

(** How the promise of a [fetch] settles: with a response, whatever its
    status, or rejected with an error whose [message] is [reason]. *)
Inductive Settled :=
| Fulfilled (response : Response.t)
| Rejected (reason : string).

(** [JSON.parse(text)]: a value, or a thrown [SyntaxError] with its message. *)
Inductive Parsed (T : Type) :=
| Value (data : T)
| SyntaxError (message : string).
Arguments Value {T} data.
Arguments SyntaxError {T} message.

Class JSON (T : Type) := JSON_parse : string -> Parsed T.

(** How a settled request reads to a handler that checks the status, then
    the body, then parses it ([analyzeCode], [fetchRepoContents]): it
    delivers [data] when the status is 2xx and the body is not blank and
    parses to [data]; it has failed when the fetch was rejected, the status
    is not 2xx, the body is empty or blank, or the body does not parse. *)
Definition delivers {T} {P : JSON T} (settled : Settled) (data : T) : Prop :=
  exists response,
    settled = Fulfilled response /\
    Response.ok response = true /\
    Response.text response <> "" /\
    trim (Response.text response) <> "" /\
    JSON_parse (Response.text response) = Value data.

Definition failed (T : Type) {P : JSON T} (settled : Settled) : Prop :=
  match settled with
  | Rejected _ => True
  | Fulfilled response =>
      Response.ok response = false \/
      Response.text response = "" \/
      trim (Response.text response) = "" \/
      exists message, JSON_parse (T := T) (Response.text response) = SyntaxError message
  end.

(** ** The state of [Home] *)

Record State := {
  repoUrl : string;
  loading : bool;
  result : option RepoIngestionResponse.t;
  error : string;
  currentPath : string;
  contentsResult : option RepoContentsResponse.t;
  loadingContents : bool;
  analysisResult : option CodeAnalysisResponse.t;
  loadingAnalysis : bool;
  fuzzingResult : option FuzzingResponse.t;
  loadingFuzzing : bool;
  instructionName : string;
  timeoutSeconds : Z }.

(** The initial values given to [useState]. *)
Definition initial : State := {|
  repoUrl := "";
  loading := false;
  result := None;
  error := "";
  currentPath := "";
  contentsResult := None;
  loadingContents := false;
  analysisResult := None;
  loadingAnalysis := false;
  fuzzingResult := None;
  loadingFuzzing := false;
  instructionName := "increment";
  timeoutSeconds := 60 |}.

(** The setters returned by [useState]: each replaces one cell. *)
Definition setRepoUrl (v : string) (s : State) : State :=
  {| repoUrl := v; loading := loading s; result := result s; error := error s;
     currentPath := currentPath s; contentsResult := contentsResult s;
     loadingContents := loadingContents s; analysisResult := analysisResult s;
     loadingAnalysis := loadingAnalysis s; fuzzingResult := fuzzingResult s;
     loadingFuzzing := loadingFuzzing s; instructionName := instructionName s;
     timeoutSeconds := timeoutSeconds s |}.

Definition setLoading (v : bool) (s : State) : State :=
  {| repoUrl := repoUrl s; loading := v; result := result s; error := error s;
     currentPath := currentPath s; contentsResult := contentsResult s;
     loadingContents := loadingContents s; analysisResult := analysisResult s;
     loadingAnalysis := loadingAnalysis s; fuzzingResult := fuzzingResult s;
     loadingFuzzing := loadingFuzzing s; instructionName := instructionName s;
     timeoutSeconds := timeoutSeconds s |}.

Definition setResult (v : option RepoIngestionResponse.t) (s : State) : State :=
  {| repoUrl := repoUrl s; loading := loading s; result := v; error := error s;
     currentPath := currentPath s; contentsResult := contentsResult s;
     loadingContents := loadingContents s; analysisResult := analysisResult s;
     loadingAnalysis := loadingAnalysis s; fuzzingResult := fuzzingResult s;
     loadingFuzzing := loadingFuzzing s; instructionName := instructionName s;
     timeoutSeconds := timeoutSeconds s |}.

Definition setError (v : string) (s : State) : State :=
  {| repoUrl := repoUrl s; loading := loading s; result := result s; error := v;
     currentPath := currentPath s; contentsResult := contentsResult s;
     loadingContents := loadingContents s; analysisResult := analysisResult s;
     loadingAnalysis := loadingAnalysis s; fuzzingResult := fuzzingResult s;
     loadingFuzzing := loadingFuzzing s; instructionName := instructionName s;
     timeoutSeconds := timeoutSeconds s |}.

Definition setCurrentPath (v : string) (s : State) : State :=
  {| repoUrl := repoUrl s; loading := loading s; result := result s; error := error s;
     currentPath := v; contentsResult := contentsResult s;
     loadingContents := loadingContents s; analysisResult := analysisResult s;
     loadingAnalysis := loadingAnalysis s; fuzzingResult := fuzzingResult s;
     loadingFuzzing := loadingFuzzing s; instructionName := instructionName s;
     timeoutSeconds := timeoutSeconds s |}.

Definition setContentsResult (v : option RepoContentsResponse.t) (s : State) : State :=
  {| repoUrl := repoUrl s; loading := loading s; result := result s; error := error s;
     currentPath := currentPath s; contentsResult := v;
     loadingContents := loadingContents s; analysisResult := analysisResult s;
     loadingAnalysis := loadingAnalysis s; fuzzingResult := fuzzingResult s;
     loadingFuzzing := loadingFuzzing s; instructionName := instructionName s;
     timeoutSeconds := timeoutSeconds s |}.

Definition setLoadingContents (v : bool) (s : State) : State :=
  {| repoUrl := repoUrl s; loading := loading s; result := result s; error := error s;
     currentPath := currentPath s; contentsResult := contentsResult s;
     loadingContents := v; analysisResult := analysisResult s;
     loadingAnalysis := loadingAnalysis s; fuzzingResult := fuzzingResult s;
     loadingFuzzing := loadingFuzzing s; instructionName := instructionName s;
     timeoutSeconds := timeoutSeconds s |}.

Definition setAnalysisResult (v : option CodeAnalysisResponse.t) (s : State) : State :=
  {| repoUrl := repoUrl s; loading := loading s; result := result s; error := error s;
     currentPath := currentPath s; contentsResult := contentsResult s;
     loadingContents := loadingContents s; analysisResult := v;
     loadingAnalysis := loadingAnalysis s; fuzzingResult := fuzzingResult s;
     loadingFuzzing := loadingFuzzing s; instructionName := instructionName s;
     timeoutSeconds := timeoutSeconds s |}.

Definition setLoadingAnalysis (v : bool) (s : State) : State :=
  {| repoUrl := repoUrl s; loading := loading s; result := result s; error := error s;
     currentPath := currentPath s; contentsResult := contentsResult s;
     loadingContents := loadingContents s; analysisResult := analysisResult s;
     loadingAnalysis := v; fuzzingResult := fuzzingResult s;
     loadingFuzzing := loadingFuzzing s; instructionName := instructionName s;
     timeoutSeconds := timeoutSeconds s |}.

Definition setFuzzingResult (v : option FuzzingResponse.t) (s : State) : State :=
  {| repoUrl := repoUrl s; loading := loading s; result := result s; error := error s;
     currentPath := currentPath s; contentsResult := contentsResult s;
     loadingContents := loadingContents s; analysisResult := analysisResult s;
     loadingAnalysis := loadingAnalysis s; fuzzingResult := v;
     loadingFuzzing := loadingFuzzing s; instructionName := instructionName s;
     timeoutSeconds := timeoutSeconds s |}.

Definition setLoadingFuzzing (v : bool) (s : State) : State :=
  {| repoUrl := repoUrl s; loading := loading s; result := result s; error := error s;
     currentPath := currentPath s; contentsResult := contentsResult s;
     loadingContents := loadingContents s; analysisResult := analysisResult s;
     loadingAnalysis := loadingAnalysis s; fuzzingResult := fuzzingResult s;
     loadingFuzzing := v; instructionName := instructionName s;
     timeoutSeconds := timeoutSeconds s |}.

Definition setInstructionName (v : string) (s : State) : State :=
  {| repoUrl := repoUrl s; loading := loading s; result := result s; error := error s;
     currentPath := currentPath s; contentsResult := contentsResult s;
     loadingContents := loadingContents s; analysisResult := analysisResult s;
     loadingAnalysis := loadingAnalysis s; fuzzingResult := fuzzingResult s;
     loadingFuzzing := loadingFuzzing s; instructionName := v;
     timeoutSeconds := timeoutSeconds s |}.

Definition setTimeoutSeconds (v : Z) (s : State) : State :=
  {| repoUrl := repoUrl s; loading := loading s; result := result s; error := error s;
     currentPath := currentPath s; contentsResult := contentsResult s;
     loadingContents := loadingContents s; analysisResult := analysisResult s;
     loadingAnalysis := loadingAnalysis s; fuzzingResult := fuzzingResult s;
     loadingFuzzing := loadingFuzzing s; instructionName := instructionName s;
     timeoutSeconds := v |}.

(** ** Handlers as computations

    A handler runs on the state, may throw an [Error] (kept as its
    [message]), and may start requests.  A started request remembers which
    handler is suspended on it, with the variables that handler closed over. *)

Inductive Suspended :=
| handleSubmit_awaiting (repoUrl : string)
| analyzeCode_awaiting
| runFuzzingTests_awaiting
| fetchRepoContents_awaiting (repoUrl path : string).

Record Fetch := { request : Request; awaiting : Suspended }.

Inductive Completion (A : Type) :=
| Normal (value : A)
| Thrown (message : string).
Arguments Normal {A} value.
Arguments Thrown {A} message.

Definition Handler (A : Type) : Type := State -> Completion A * State * list Fetch.

Definition ret {A} (a : A) : Handler A := fun s => (Normal a, s, []).

Definition bind {A B} (m : Handler A) (k : A -> Handler B) : Handler B :=
  fun s =>
    match m s with
    | (Normal a, s1, started1) =>
        let '(c, s2, started2) := k a s1 in (c, s2, (started1 ++ started2)%list)
    | (Thrown e, s1, started1) => (Thrown e, s1, started1)
    end.

Notation "x <- m ;; k" := (bind m (fun x => k))
  (at level 61, m at next level, right associativity).
Notation "m ;; k" := (bind m (fun _ => k))
  (at level 61, right associativity).

(** [throw new Error(message)] *)
Definition throw {A} (message : string) : Handler A := fun s => (Thrown message, s, []).

(** A call of a state setter. *)
Definition call (setter : State -> State) : Handler unit :=
  fun s => (Normal tt, setter s, []).

(** [fetch(...)], the handler suspending on it. *)
Definition fetch (r : Request) (k : Suspended) : Handler unit :=
  fun s => (Normal tt, s, [ {| request := r; awaiting := k |} ]).

(** [if (c) { m }] *)
Definition when (c : bool) (m : Handler unit) : Handler unit :=
  if c then m else ret tt.

(** [try { body } catch (err) { handler(err.message) }] *)
Definition try_catch {A} (body : Handler A) (handler : string -> Handler A) : Handler A :=
  fun s =>
    match body s with
    | (Normal a, s1, started1) => (Normal a, s1, started1)
    | (Thrown e, s1, started1) =>
        let '(c, s2, started2) := handler e s1 in (c, s2, (started1 ++ started2)%list)
    end.

(** [try { body } finally { final }] *)
Definition try_finally {A} (body : Handler A) (final : Handler unit) : Handler A :=
  fun s =>
    let '(c, s1, started1) := body s in
    match final s1 with
    | (Normal _, s2, started2) => (c, s2, (started1 ++ started2)%list)
    | (Thrown e, s2, started2) => (Thrown e, s2, (started1 ++ started2)%list)
    end.

Definition try_catch_finally {A} (body : Handler A) (handler : string -> Handler A)
  (final : Handler unit) : Handler A :=
  try_finally (try_catch body handler) final.

(** The values a handler closes over are those of the render it was created
    in: the state the event finds. *)
Definition closure {A} (h : State -> Handler A) : Handler A := fun s => h s s.

(** [await] of the settled [fetch]: the response, or the rejection thrown. *)
Definition await (settled : Settled) : Handler Response.t :=
  match settled with
  | Fulfilled response => ret response
  | Rejected reason => throw reason
  end.

(** [console.error(...)] leaves the state alone. *)
Definition console_error : Handler unit := ret tt.

(** The state a handler leaves and the requests it started. *)
Definition state_after {A} (r : Completion A * State * list Fetch) : State := snd (fst r).
Definition started {A} (r : Completion A * State * list Fetch) : list Fetch := snd r.
Definition requests {A} (r : Completion A * State * list Fetch) : list Request :=
  map request (snd r).

Section Handlers.

Context {json_ingestion : JSON RepoIngestionResponse.t}.
Context {json_analysis : JSON CodeAnalysisResponse.t}.
Context {json_fuzzing : JSON FuzzingResponse.t}.
Context {json_contents : JSON RepoContentsResponse.t}.

(** [JSON.parse(text)] inside a handler. *)
Definition parse {T} {P : JSON T} (text : string) : Handler T :=
  match JSON_parse text with
  | Value data => ret data
  | SyntaxError message => throw message
  end.

(** [await response.json()] *)
Definition json {T} {P : JSON T} (response : Response.t) : Handler T :=
  parse (Response.text response).

(** [fetchRepoContents(repoUrl, path)] up to its [fetch]. *)
Definition fetchRepoContents (repoUrl path : string) : Handler unit :=
  call (setLoadingContents true) ;;
  call (setError "") ;;
  fetch (repo_contents repoUrl (if truthy path then Some path else None))
        (fetchRepoContents_awaiting repoUrl path).

(** [fetchRepoContents(repoUrl, path)] from the settled [fetch] on. *)
Definition fetchRepoContents_resumed (repoUrl path : string) (settled : Settled)
  : Handler unit :=
  try_catch_finally
    (response <- await settled ;;
     when (negb (Response.ok response))
       (let errorText := Response.text response in
        throw (errorText ||' ("Server error: " ++ decimal (Response.status response)))) ;;
     let responseText := Response.text response in
     when (negb (truthy responseText) || (trim responseText =? ""))
       (throw "Empty response from server") ;;
     try_catch
       (data <- parse responseText ;;
        call (setContentsResult (Some data)) ;;
        call (setCurrentPath path))
       (fun jsonError =>
          console_error ;;
          throw "Invalid response format from server"))
    (fun err =>
       console_error ;;
       call (setError (err ||' "An error occurred while fetching contents")) ;;
       call (setContentsResult (Some {|
         RepoContentsResponse.success := false;
         RepoContentsResponse.message := err ||' "Failed to fetch repository contents";
         RepoContentsResponse.contents := None;
         RepoContentsResponse.file_content := None;
         RepoContentsResponse.repo_url := repoUrl;
         RepoContentsResponse.path := path |})))
    (call (setLoadingContents false)).

(** [handleSubmit(e)] up to its [fetch]; [e.preventDefault()] only keeps
    the browser from leaving the page. *)
Definition handleSubmit : Handler unit :=
  closure (fun render =>
    call (setLoading true) ;;
    call (setError "") ;;
    call (setResult None) ;;
    call (setContentsResult None) ;;
    call (setCurrentPath "") ;;
    call (setAnalysisResult None) ;;
    fetch (ingest_repo (repoUrl render)) (handleSubmit_awaiting (repoUrl render))).

(** [handleSubmit(e)] from the settled [fetch] on. *)
Definition handleSubmit_resumed (repoUrl : string) (settled : Settled) : Handler unit :=
  try_catch_finally
    (response <- await settled ;;
     data <- json response ;;
     call (setResult (Some data)) ;;
     when (negb (Response.ok response))
       (throw (RepoIngestionResponse.message data ||' "Failed to ingest repository")) ;;
     when (RepoIngestionResponse.success data
           && holds (RepoIngestionResponse.is_anchor_project data))
       (fetchRepoContents repoUrl ""))
    (fun err => call (setError (err ||' "An error occurred")))
    (call (setLoading false)).

(** [analyzeCode()] up to its [fetch]. *)
Definition analyzeCode : Handler unit :=
  closure (fun render =>
    if negb (truthy (repoUrl render)) then ret tt else
    call (setLoadingAnalysis true) ;;
    call (setError "") ;;
    call (setAnalysisResult None) ;;
    fetch (analyze_code (repoUrl render)) analyzeCode_awaiting).

(** [analyzeCode()] from the settled [fetch] on. *)
Definition analyzeCode_resumed (settled : Settled) : Handler unit :=
  try_catch_finally
    (response <- await settled ;;
     when (negb (Response.ok response))
       (let errorText := Response.text response in
        throw (errorText ||' ("Server error: " ++ decimal (Response.status response)))) ;;
     let responseText := Response.text response in
     when (negb (truthy responseText) || (trim responseText =? ""))
       (throw "Empty response from server") ;;
     try_catch
       (data <- parse responseText ;;
        call (setAnalysisResult (Some data)))
       (fun jsonError =>
          console_error ;;
          throw "Invalid response format from server"))
    (fun err =>
       console_error ;;
       call (setError (err ||' "An error occurred during code analysis")) ;;
       call (setAnalysisResult (Some {|
         CodeAnalysisResponse.success := false;
         CodeAnalysisResponse.message := err ||' "Failed to analyze code";
         CodeAnalysisResponse.bugs := Some [] |})))
    (call (setLoadingAnalysis false)).

(** [runFuzzingTests()] up to its [fetch]. *)
Definition runFuzzingTests : Handler unit :=
  closure (fun render =>
    if negb (truthy (repoUrl render)) then ret tt else
    call (setLoadingFuzzing true) ;;
    call (setFuzzingResult None) ;;
    call (setError "") ;;
    fetch (fuzz_test (repoUrl render) (instructionName render) (timeoutSeconds render))
          runFuzzingTests_awaiting).

(** [runFuzzingTests()] from the settled [fetch] on. *)
Definition runFuzzingTests_resumed (settled : Settled) : Handler unit :=
  try_catch_finally
    (response <- await settled ;;
     when (negb (Response.ok response))
       (let text := Response.text response in
        throw (text ||' "Failed to run fuzzing tests")) ;;
     data <- json response ;;
     call (setFuzzingResult (Some data)))
    (fun err => call (setError (err ||' "Failed to run fuzzing tests")))
    (call (setLoadingFuzzing false)).

(** [navigateToPath(path)] *)
Definition navigateToPath (path : string) : Handler unit :=
  closure (fun render => fetchRepoContents (repoUrl render) path).

(** [navigateUp()] *)
Definition navigateUp : Handler unit :=
  closure (fun render =>
    if negb (truthy (currentPath render)) then ret tt else
    let pathParts := split "/" (currentPath render) in
    let pathParts := pop pathParts in
    let parentPath := join "/" pathParts in
    fetchRepoContents (repoUrl render) parentPath).

(** The suspended handler that a settled request wakes. *)
Definition resume (k : Suspended) (settled : Settled) : Handler unit :=
  match k with
  | handleSubmit_awaiting repoUrl => handleSubmit_resumed repoUrl settled
  | analyzeCode_awaiting => analyzeCode_resumed settled
  | runFuzzingTests_awaiting => runFuzzingTests_resumed settled
  | fetchRepoContents_awaiting repoUrl path => fetchRepoContents_resumed repoUrl path settled
  end.

End Handlers.

(** ** What [Home] renders

    The JSX of [Home], block by block, kept to what each block shows and
    which controls it offers.  Layout, colours and number formatting
    ([toFixed]) are left out of the view: a size or a duration is kept as
    the number the page formats; [formatFileSize] is embedded on its own
    further down. *)

Record PipelineControls := {
  analyzeDisabled : bool;
  instructionNameValue : string;
  timeoutSecondsValue : Z;
  runFuzzDisabled : bool }.

Record ResultCard := {
  heading : string;
  about : string;
  stars : Z;
  forks : Z;
  languageTag : option string;
  anchorBadge : option bool;
  controls : option PipelineControls;
  link : string }.

Inductive ExecutionTime :=
| time_absent
| time_zero
| time_shown (execution_time_ms : Z).

Record FuzzingPanel := {
  passed : bool;
  fuzzingMessage : string;
  executionTime : ExecutionTime;
  detectedIssues : option (list string);
  generatedTestFile : option string }.

Inductive AnalysisBody :=
| bug_list (bugs : list CodeBug.t)
| no_security_issues_found.

Record AnalysisPanel := {
  analysisMessage : string;
  analysisBody : AnalysisBody }.

Record ListingPanel := {
  upDisabled : bool;
  pathLabel : string;
  rows : list GitHubContent.t;
  emptyNotice : bool }.

Record FilePanel := {
  fileName : string;
  fileSize : option Z;
  preview : option string }.

Record View := {
  repoUrlValue : string;
  submitDisabled : bool;
  errorBanner : option string;
  resultCard : option ResultCard;
  analysisSpinner : bool;
  fuzzingSpinner : bool;
  fuzzingPanel : option FuzzingPanel;
  analysisPanel : option AnalysisPanel;
  contentsSpinner : bool;
  listingPanel : option ListingPanel;
  filePanel : option FilePanel }.

(** [getFileIcon(contentType)] *)
Definition getFileIcon (contentType : string) : string :=
  if contentType =? "dir" then "/folder.svg"
  else if contentType =? "file" then "/file.svg"
  else "/file.svg".

(** A value shown only when it is a non-empty string: [{x && ...}]. *)
Definition shown (x : option string) : option string :=
  match x with
  | Some v => if truthy v then Some v else None
  | None => None
  end.

(** [{error && ...}] *)
Definition renderError (s : State) : option string :=
  if truthy (error s) then Some (error s) else None.

(** The block under [{result.is_anchor_project && ...}]. *)
Definition renderControls (s : State) : PipelineControls :=
  {| analyzeDisabled := loadingAnalysis s;
     instructionNameValue := instructionName s;
     timeoutSecondsValue := timeoutSeconds s;
     runFuzzDisabled := loadingFuzzing s |}.

(** The block under [{result && ...}].  It reads [result.repo.name] first:
    without a [repo] that access throws and nothing is rendered ([None]). *)
Definition renderResult (s : State) (r : RepoIngestionResponse.t) : option ResultCard :=
  match RepoIngestionResponse.repo r with
  | None => None
  | Some repo =>
      Some {| heading := GitHubRepo.name repo;
              about := match GitHubRepo.description repo with
                       | Some d => d ||' "No description"
                       | None => "No description"
                       end;
              stars := GitHubRepo.stargazers_count repo;
              forks := GitHubRepo.forks_count repo;
              languageTag := shown (GitHubRepo.language repo);
              anchorBadge := RepoIngestionResponse.is_anchor_project r;
              controls := if holds (RepoIngestionResponse.is_anchor_project r)
                          then Some (renderControls s) else None;
              link := GitHubRepo.html_url repo |}
  end.

(** The block under [{fuzzingResult && ...}]. *)
Definition renderFuzzing (r : FuzzingResponse.t) : FuzzingPanel :=
  {| passed := FuzzingResponse.success r;
     fuzzingMessage := FuzzingResponse.message r;
     executionTime := match FuzzingResponse.execution_time_ms r with
                      | None => time_absent
                      | Some 0%Z => time_zero
                      | Some ms => time_shown ms
                      end;
     detectedIssues := match FuzzingResponse.errors r with
                       | Some (e :: es) => Some (e :: es)
                       | _ => None
                       end;
     generatedTestFile := shown (FuzzingResponse.test_file r) |}.

(** The block under [{analysisResult && ...}]. *)
Definition renderAnalysis (r : CodeAnalysisResponse.t) : AnalysisPanel :=
  {| analysisMessage := CodeAnalysisResponse.message r;
     analysisBody := match CodeAnalysisResponse.bugs r with
                     | Some (b :: bs) => bug_list (b :: bs)
                     | _ => no_security_issues_found
                     end |}.

(** The block under [{contentsResult && contentsResult.contents && ...}]. *)
Definition renderListing (s : State) (r : RepoContentsResponse.t) : option ListingPanel :=
  match RepoContentsResponse.contents r with
  | None => None
  | Some items =>
      Some {| upDisabled := negb (truthy (currentPath s));
              pathLabel := "/" ++ currentPath s;
              rows := items;
              emptyNotice := (length items =? 0)%nat |}
  end.

(** The block under [{contentsResult && contentsResult.file_content && ...}]. *)
Definition renderFile (r : RepoContentsResponse.t) : option FilePanel :=
  match RepoContentsResponse.file_content r with
  | None => None
  | Some f =>
      Some {| fileName := GitHubContent.name f;
              fileSize := GitHubContent.size f;
              preview := shown (GitHubContent.content f) |}
  end.

(** The page for a state; [None] when rendering throws. *)
Definition render (s : State) : option View :=
  match
    match result s with
    | None => Some None
    | Some r => option_map Some (renderResult s r)
    end
  with
  | None => None
  | Some card =>
      Some {| repoUrlValue := repoUrl s;
              submitDisabled := loading s;
              errorBanner := renderError s;
              resultCard := card;
              analysisSpinner := loadingAnalysis s;
              fuzzingSpinner := loadingFuzzing s;
              fuzzingPanel := option_map renderFuzzing (fuzzingResult s);
              analysisPanel := option_map renderAnalysis (analysisResult s);
              contentsSpinner := loadingContents s;
              listingPanel := match contentsResult s with
                              | Some r => renderListing s r
                              | None => None
                              end;
              filePanel := match contentsResult s with
                           | Some r => renderFile r
                           | None => None
                           end |}
  end.

(** ** The event loop

    The user acts on the controls the page shows; a request in flight
    settles at any time, in any order. *)

Inductive Event :=
| change_repoUrl (value : string)
| submit
| click_analyze
| change_instructionName (value : string)
| change_timeoutSeconds (value : Z)
| click_run_fuzz
| click_up
| click_row (index : nat)
| settle (index : nat) (outcome : Settled).

Record Session := { ui : State; in_flight : list Fetch }.

Definition start : Session := {| ui := initial; in_flight := [] |}.

(** The pipeline controls, when the page shows them. *)
Definition offered_controls (v : View) : option PipelineControls :=
  match resultCard v with
  | Some card => controls card
  | None => None
  end.

(** [l] without its [n]-th element. *)
Fixpoint remove_nth {A} (n : nat) (l : list A) : list A :=
  match n, l with
  | _, [] => []
  | O, _ :: rest => rest
  | S m, x :: rest => x :: remove_nth m rest
  end.

Section EventLoop.

Context {json_ingestion : JSON RepoIngestionResponse.t}.
Context {json_analysis : JSON CodeAnalysisResponse.t}.
Context {json_fuzzing : JSON FuzzingResponse.t}.
Context {json_contents : JSON RepoContentsResponse.t}.

(** The handler a user event runs, when the page offers the control: the
    repository field is [required] and the submit button disabled while
    [loading]; the analyze and fuzz buttons are disabled while their
    operation runs; a row of kind [dir] navigates, any other opens a new tab. *)
Definition on_event (v : View) (e : Event) : option (Handler unit) :=
  match e with
  | change_repoUrl value => Some (call (setRepoUrl value))
  | submit =>
      if negb (submitDisabled v) && truthy (repoUrlValue v)
      then Some handleSubmit else None
  | click_analyze =>
      match offered_controls v with
      | Some c => if analyzeDisabled c then None else Some analyzeCode
      | None => None
      end
  | change_instructionName value =>
      match offered_controls v with
      | Some _ => Some (call (setInstructionName value))
      | None => None
      end
  | change_timeoutSeconds value =>
      match offered_controls v with
      | Some _ => Some (call (setTimeoutSeconds value))
      | None => None
      end
  | click_run_fuzz =>
      match offered_controls v with
      | Some c => if runFuzzDisabled c then None else Some runFuzzingTests
      | None => None
      end
  | click_up =>
      match listingPanel v with
      | Some p => if upDisabled p then None else Some navigateUp
      | None => None
      end
  | click_row index =>
      match listingPanel v with
      | Some p =>
          match nth_error (rows p) index with
          | Some item =>
              if GitHubContent.content_type item =? "dir"
              then Some (navigateToPath (GitHubContent.path item))
              else Some (ret tt)
          | None => None
          end
      | None => None
      end
  | settle _ _ => None
  end.

(** One turn of the loop; [None] when the event cannot happen. *)
Definition step (x : Session) (e : Event) : option Session :=
  match e with
  | settle index outcome =>
      match nth_error (in_flight x) index with
      | Some f =>
          let r := resume (awaiting f) outcome (ui x) in
          Some {| ui := state_after r;
                  in_flight := (remove_nth index (in_flight x) ++ started r)%list |}
      | None => None
      end
  | _ =>
      match render (ui x) with
      | Some v =>
          match on_event v e with
          | Some h =>
              let r := h (ui x) in
              Some {| ui := state_after r;
                      in_flight := (in_flight x ++ started r)%list |}
          | None => None
          end
      | None => None
      end
  end.

(** A run of events from a session. *)
Fixpoint run (x : Session) (es : list Event) : option Session :=
  match es with
  | [] => Some x
  | e :: rest =>
      match step x e with
      | Some y => run y rest
      | None => None
      end
  end.

End EventLoop.

(** * Report attestation

    SHA-256 (FIPS 180-4) over the bytes of a report, as the service and a
    client checking it both compute it. *)

Module SHA256.
Local Open Scope Z_scope.

(** A word is an integer in [0, 2^32). *)
Definition mask : Z := 0xFFFFFFFF.
Definition add (x y : Z) : Z := (x + y) mod 2 ^ 32.
Definition rotr (n x : Z) : Z :=
  Z.lor (Z.shiftr x n) (Z.land (Z.shiftl x (32 - n)) mask).
Definition shr (n x : Z) : Z := Z.shiftr x n.
Definition not32 (x : Z) : Z := Z.lxor x mask.

Definition Ch (x y z : Z) : Z := Z.lxor (Z.land x y) (Z.land (not32 x) z).
Definition Maj (x y z : Z) : Z :=
  Z.lxor (Z.lxor (Z.land x y) (Z.land x z)) (Z.land y z).
Definition Sigma0 (x : Z) : Z := Z.lxor (Z.lxor (rotr 2 x) (rotr 13 x)) (rotr 22 x).
Definition Sigma1 (x : Z) : Z := Z.lxor (Z.lxor (rotr 6 x) (rotr 11 x)) (rotr 25 x).
Definition sigma0 (x : Z) : Z := Z.lxor (Z.lxor (rotr 7 x) (rotr 18 x)) (shr 3 x).
Definition sigma1 (x : Z) : Z := Z.lxor (Z.lxor (rotr 17 x) (rotr 19 x)) (shr 10 x).

(** The integer part of the [k]-th root of [n], for a root below [2^bits]:
    one bit at a time, from the top. *)
Fixpoint root_bits (k n : Z) (bits : nat) (r : Z) : Z :=
  match bits with
  | O => r
  | S b =>
      let c := r + 2 ^ Z.of_nat b in
      if c ^ k <=? n then root_bits k n b c else root_bits k n b r
  end.

(** The first 32 bits of the fractional part of the [k]-th root of [p]. *)
Definition fractional_root (k p : Z) : Z :=
  root_bits k (p * 2 ^ (32 * k)) 40 0 mod 2 ^ 32.

Definition is_prime (n : nat) : bool :=
  forallb (fun d => negb (n mod d =? 0)%nat) (seq 2 (n - 2)).

(** The primes up to 311: the first 64. *)
Definition primes : list Z :=
  Eval vm_compute in map Z.of_nat (filter is_prime (seq 2 310)).

(** The round constants: from the cube roots of the first 64 primes. *)
Definition K : list Z := Eval vm_compute in map (fractional_root 3) primes.

Record Hash := {
  h0 : Z; h1 : Z; h2 : Z; h3 : Z; h4 : Z; h5 : Z; h6 : Z; h7 : Z }.

(** The initial hash value: from the square roots of the first 8 primes. *)
Definition H0 : Hash :=
  Eval vm_compute in
  let r i := fractional_root 2 (nth i primes 0) in
  {| h0 := r 0%nat; h1 := r 1%nat; h2 := r 2%nat; h3 := r 3%nat;
     h4 := r 4%nat; h5 := r 5%nat; h6 := r 6%nat; h7 := r 7%nat |}.

(** The message with its padding: the bit 1, zeros up to 56 modulo 64
    bytes, and the length in bits on 8 bytes, most significant first. *)
Definition big_endian (n : nat) (x : Z) : list Z :=
  map (fun i => Z.land (Z.shiftr x (8 * Z.of_nat i)) 0xFF) (rev (seq 0 n)).

Definition pad (bytes : list Z) : list Z :=
  let l := Z.of_nat (length bytes) in
  let zeros := Z.to_nat ((55 - l) mod 64) in
  (bytes ++ [0x80] ++ repeat 0 zeros ++ big_endian 8 (8 * l))%list.

(** Four bytes, most significant first, as one word. *)
Fixpoint words (bytes : list Z) : list Z :=
  match bytes with
  | b3 :: b2 :: b1 :: b0 :: rest =>
      Z.lor (Z.shiftl b3 24) (Z.lor (Z.shiftl b2 16) (Z.lor (Z.shiftl b1 8) b0))
      :: words rest
  | _ => []
  end.

(** The message schedule: [n] more words after the ones in [w]. *)
Fixpoint schedule (n : nat) (w : list Z) : list Z :=
  match n with
  | O => w
  | S m =>
      let t := length w in
      let at_ k := nth (t - k) w 0 in
      schedule m (w ++ [add (add (sigma1 (at_ 2%nat)) (at_ 7%nat))
                            (add (sigma0 (at_ 15%nat)) (at_ 16%nat))])%list
  end.

Definition round (s : Hash) (kw : Z * Z) : Hash :=
  let '(k, w) := kw in
  let T1 := add (add (add (add (h7 s) (Sigma1 (h4 s))) (Ch (h4 s) (h5 s) (h6 s))) k) w in
  let T2 := add (Sigma0 (h0 s)) (Maj (h0 s) (h1 s) (h2 s)) in
  {| h0 := add T1 T2; h1 := h0 s; h2 := h1 s; h3 := h2 s;
     h4 := add (h3 s) T1; h5 := h4 s; h6 := h5 s; h7 := h6 s |}.

(** One block of 16 words. *)
Definition compress (H : Hash) (block : list Z) : Hash :=
  let s := fold_left round (combine K (schedule 48 block)) H in
  {| h0 := add (h0 H) (h0 s); h1 := add (h1 H) (h1 s);
     h2 := add (h2 H) (h2 s); h3 := add (h3 H) (h3 s);
     h4 := add (h4 H) (h4 s); h5 := add (h5 H) (h5 s);
     h6 := add (h6 H) (h6 s); h7 := add (h7 H) (h7 s) |}.

(** The blocks of [n] times 16 words, one after the other. *)
Fixpoint blocks (n : nat) (H : Hash) (w : list Z) : Hash :=
  match n with
  | O => H
  | S m => blocks m (compress H (firstn 16 w)) (skipn 16 w)
  end.

Definition digest (bytes : list Z) : Hash :=
  let w := words (pad bytes) in
  blocks (length w / 16) H0 w.

Definition hex_digit (n : Z) : ascii :=
  nth (Z.to_nat n) (list_ascii_of_string "0123456789abcdef") "0"%char.

(** A word as eight lowercase hexadecimal digits. *)
Definition hex_word (x : Z) : string :=
  string_of_list_ascii
    (map (fun i => hex_digit (Z.land (Z.shiftr x (4 * Z.of_nat i)) 0xF)) (rev (seq 0 8))).

Definition hex (H : Hash) : string :=
  (hex_word (h0 H) ++ hex_word (h1 H) ++ hex_word (h2 H) ++ hex_word (h3 H) ++
   hex_word (h4 H) ++ hex_word (h5 H) ++ hex_word (h6 H) ++ hex_word (h7 H))%string.

End SHA256.

(** The bytes a string is sent as: UTF-8, one byte below 128 and two from
    128 to 255. *)
Definition utf8 (s : string) : list Z :=
  flat_map (fun c =>
    let n := Z.of_nat (nat_of_ascii c) in
    if (n <? 128)%Z then [n]
    else [Z.lor 0xC0 (Z.shiftr n 6); Z.lor 0x80 (Z.land n 0x3F)])
    (list_ascii_of_string s).

(** [sha256(s)], in lowercase hexadecimal. *)
Definition sha256 (s : string) : string := SHA256.hex (SHA256.digest (utf8 s)).

(** The answer of [POST /api/log-report]. *)
Module LogReportResponse.
Record t := {
  success : bool;
  message : string;
  transaction_signature : string;
  hash : string }.
End LogReportResponse.

(** Modelled from the spec: the handler of [POST /api/log-report] is not
    among the source files (its documentation and a test script are).  It
    hashes the report content as submitted, with no normalization, stores
    the hash on the ledger, and returns the transaction signature with the
    hash; [store] is the ledger, which answers with a signature or fails, and
    a failure leaves no attestation. *)
Definition logReport (store : string -> option string) (report_content : string)
  : option LogReportResponse.t :=
  let hash := sha256 report_content in
  match store hash with
  | Some signature =>
      Some {| LogReportResponse.success := true;
              LogReportResponse.message := "Report logged successfully";
              LogReportResponse.transaction_signature := signature;
              LogReportResponse.hash := hash |}
  | None => None
  end.

(** * A session with the service, for concrete runs

    Two repositories, the bodies the service answers with, and [JSON.parse]
    on exactly those bodies (any other text is malformed).  The bodies are
    written with an apostrophe where JSON has its quotation mark. *)

Fixpoint json_text (s : string) : string :=
  match s with
  | EmptyString => EmptyString
  | String c rest =>
      String (if Ascii.eqb c "'" then ascii_of_nat 34 else c) (json_text rest)
  end.

Definition vault_url : string := "https://github.com/acme/vault".

Definition vault : GitHubRepo.t := {|
  GitHubRepo.id := 1;
  GitHubRepo.name := "vault";
  GitHubRepo.full_name := "acme/vault";
  GitHubRepo.description := None;
  GitHubRepo.html_url := vault_url;
  GitHubRepo.stargazers_count := 42;
  GitHubRepo.forks_count := 7;
  GitHubRepo.open_issues_count := 3;
  GitHubRepo.owner := {| GitHubRepo.login := "acme"; GitHubRepo.avatar_url := None |};
  GitHubRepo.language := Some "Rust";
  GitHubRepo.created_at := "2024-01-01T00:00:00Z";
  GitHubRepo.updated_at := "2024-06-01T00:00:00Z" |}.

Definition vault_json : string :=
  "{'id':1,'name':'vault','full_name':'acme/vault'," ++
  "'html_url':'https://github.com/acme/vault','stargazers_count':42," ++
  "'forks_count':7,'open_issues_count':3,'owner':{'login':'acme'}," ++
  "'language':'Rust','created_at':'2024-01-01T00:00:00Z'," ++
  "'updated_at':'2024-06-01T00:00:00Z'}".

(** The repository is an Anchor project and the ingestion succeeded. *)
Definition ingested : RepoIngestionResponse.t := {|
  RepoIngestionResponse.success := true;
  RepoIngestionResponse.message := "Repository ingested";
  RepoIngestionResponse.repo := Some vault;
  RepoIngestionResponse.is_anchor_project := Some true |}.

Definition ingested_body : string :=
  json_text ("{'success':true,'message':'Repository ingested','repo':"
             ++ vault_json ++ ",'is_anchor_project':true}").

(** The ingestion did not succeed, although Anchor files were seen. *)
Definition not_ingested : RepoIngestionResponse.t := {|
  RepoIngestionResponse.success := false;
  RepoIngestionResponse.message := "Program manifest could not be read";
  RepoIngestionResponse.repo := Some vault;
  RepoIngestionResponse.is_anchor_project := Some true |}.

Definition not_ingested_body : string :=
  json_text ("{'success':false,'message':'Program manifest could not be read','repo':"
             ++ vault_json ++ ",'is_anchor_project':true}").

(** The body of a 500 answer of the ingestion endpoint. *)
Definition ingestion_error : RepoIngestionResponse.t := {|
  RepoIngestionResponse.success := false;
  RepoIngestionResponse.message := "GitHub API rate limit exceeded";
  RepoIngestionResponse.repo := None;
  RepoIngestionResponse.is_anchor_project := None |}.

Definition ingestion_error_body : string :=
  json_text "{'success':false,'message':'GitHub API rate limit exceeded'}".

(** A second repository, which is not an Anchor project. *)
Definition docs_url : string := "https://github.com/acme/docs".

Definition docs : GitHubRepo.t := {|
  GitHubRepo.id := 2;
  GitHubRepo.name := "docs";
  GitHubRepo.full_name := "acme/docs";
  GitHubRepo.description := Some "Handbook";
  GitHubRepo.html_url := docs_url;
  GitHubRepo.stargazers_count := 5;
  GitHubRepo.forks_count := 0;
  GitHubRepo.open_issues_count := 1;
  GitHubRepo.owner := {| GitHubRepo.login := "acme"; GitHubRepo.avatar_url := None |};
  GitHubRepo.language := None;
  GitHubRepo.created_at := "2023-03-01T00:00:00Z";
  GitHubRepo.updated_at := "2024-02-01T00:00:00Z" |}.

Definition docs_json : string :=
  "{'id':2,'name':'docs','full_name':'acme/docs','description':'Handbook'," ++
  "'html_url':'https://github.com/acme/docs','stargazers_count':5," ++
  "'forks_count':0,'open_issues_count':1,'owner':{'login':'acme'}," ++
  "'created_at':'2023-03-01T00:00:00Z','updated_at':'2024-02-01T00:00:00Z'}".

Definition not_anchor : RepoIngestionResponse.t := {|
  RepoIngestionResponse.success := true;
  RepoIngestionResponse.message := "Repository ingested";
  RepoIngestionResponse.repo := Some docs;
  RepoIngestionResponse.is_anchor_project := Some false |}.

Definition not_anchor_body : string :=
  json_text ("{'success':true,'message':'Repository ingested','repo':"
             ++ docs_json ++ ",'is_anchor_project':false}").

Definition scenario_ingestion : JSON RepoIngestionResponse.t :=
  fun text =>
    if text =? ingested_body then Value ingested
    else if text =? not_ingested_body then Value not_ingested
    else if text =? not_anchor_body then Value not_anchor
    else if text =? ingestion_error_body then Value ingestion_error
    else SyntaxError "Unexpected token in JSON".

Definition directory (path : string) : GitHubContent.t := {|
  GitHubContent.name := path;
  GitHubContent.path := path;
  GitHubContent.content_type := "dir";
  GitHubContent.size := None;
  GitHubContent.html_url := vault_url ++ "/tree/main/" ++ path;
  GitHubContent.download_url := None;
  GitHubContent.content := None;
  GitHubContent.encoding := None;
  GitHubContent.sha := "0a1b2c";
  GitHubContent.url := "https://api.github.com/repos/acme/vault/contents/" ++ path |}.

Definition directory_json (path : string) : string :=
  "{'name':'" ++ path ++ "','path':'" ++ path ++ "','content_type':'dir'," ++
  "'html_url':'" ++ vault_url ++ "/tree/main/" ++ path ++ "','sha':'0a1b2c'," ++
  "'url':'https://api.github.com/repos/acme/vault/contents/" ++ path ++ "'}".

(** The listing of [path] with the directories [entries]. *)
Definition listing (path : string) (entries : list string) : RepoContentsResponse.t := {|
  RepoContentsResponse.success := true;
  RepoContentsResponse.message := "Contents fetched";
  RepoContentsResponse.contents := Some (map directory entries);
  RepoContentsResponse.file_content := None;
  RepoContentsResponse.repo_url := vault_url;
  RepoContentsResponse.path := path |}.

Definition listing_body (path : string) (entries : list string) : string :=
  json_text ("{'success':true,'message':'Contents fetched','contents':["
             ++ String.concat "," (map directory_json entries)
             ++ "],'repo_url':'" ++ vault_url ++ "','path':'" ++ path ++ "'}").

Definition scenario_contents : JSON RepoContentsResponse.t :=
  fun text =>
    if text =? listing_body "" ["a"; "b"] then Value (listing "" ["a"; "b"])
    else if text =? listing_body "a" ["a/src"] then Value (listing "a" ["a/src"])
    else if text =? listing_body "b" [] then Value (listing "b" [])
    else SyntaxError "Unexpected token in JSON".

(** A scan that succeeded and found nothing. *)
Definition clean_scan : CodeAnalysisResponse.t := {|
  CodeAnalysisResponse.success := true;
  CodeAnalysisResponse.message := "No issues detected";
  CodeAnalysisResponse.bugs := Some [] |}.

Definition clean_scan_body : string :=
  json_text "{'success':true,'message':'No issues detected','bugs':[]}".

Definition scenario_analysis : JSON CodeAnalysisResponse.t :=
  fun text =>
    if text =? clean_scan_body then Value clean_scan
    else SyntaxError "Unexpected token in JSON".

(** A fuzz run that found an overflow. *)
Definition fuzzed : FuzzingResponse.t := {|
  FuzzingResponse.success := true;
  FuzzingResponse.message := "Fuzzing completed";
  FuzzingResponse.errors := Some ["integer overflow at line 57"];
  FuzzingResponse.test_file := None;
  FuzzingResponse.execution_time_ms := Some 4200%Z |}.

Definition fuzzed_body : string :=
  json_text ("{'success':true,'message':'Fuzzing completed'," ++
             "'errors':['integer overflow at line 57'],'execution_time_ms':4200}").

Definition scenario_fuzzing : JSON FuzzingResponse.t :=
  fun text =>
    if text =? fuzzed_body then Value fuzzed
    else SyntaxError "Unexpected token in JSON".

(** A scan the service could not carry out, answered 200 with
    [success] false. *)
Definition refused_scan : CodeAnalysisResponse.t := {|
  CodeAnalysisResponse.success := false;
  CodeAnalysisResponse.message := "Analysis failed: program could not be built";
  CodeAnalysisResponse.bugs := Some [] |}.

Definition refused_scan_body : string :=
  json_text ("{'success':false," ++
             "'message':'Analysis failed: program could not be built','bugs':[]}").

(** [JSON.parse] on the analysis bodies, the refused scan included. *)
Definition scenario_analysis_refused : JSON CodeAnalysisResponse.t :=
  fun text =>
    if text =? refused_scan_body then Value refused_scan
    else scenario_analysis text.

(** A 200 answer with the given body. *)
Definition answer (body : string) : Settled :=
  Fulfilled {| Response.status := 200; Response.text := body |}.

(** The event loop with the parser of the scenario. *)
Definition scenario_run : Session -> list Event -> option Session :=
  @run scenario_ingestion scenario_analysis scenario_fuzzing scenario_contents.

(** The user enters the repository and submits; the ingestion answers. *)
Definition ingest_with (outcome : Settled) : list Event :=
  [change_repoUrl vault_url; submit; settle 0 outcome].

(** The ingestion succeeds and the listing of the root arrives. *)
Definition open_root : list Event :=
  (ingest_with (answer ingested_body)
   ++ [settle 0 (answer (listing_body "" ["a"; "b"]))])%list.

(** A 500 answer with the given body. *)
Definition server_error (body : string) : Settled :=
  Fulfilled {| Response.status := 500; Response.text := body |}.

(** The session after a run, or the fresh one when the run is impossible. *)
Definition session_after (es : list Event) : Session :=
  match scenario_run start es with
  | Some x => x
  | None => start
  end.

(** A state deep in the tree of the repository. *)
Definition in_src : State :=
  setCurrentPath "programs/vault/src" (setRepoUrl vault_url initial).

(** The root is open, a scan has come back clean, a fuzz run is in flight. *)
Definition fuzz_in_flight : list Event :=
  (open_root ++ [click_analyze; click_run_fuzz; settle 0 (answer clean_scan_body)])%list.

(** The first repository is ingested; before its root listing arrives the
    second is submitted and found not to be an Anchor project; then the
    listing of the first arrives. *)
Definition late_listing : list Event :=
  (ingest_with (answer ingested_body)
   ++ [change_repoUrl docs_url; submit;
       settle 1 (answer not_anchor_body);
       settle 0 (answer (listing_body "" ["a"; "b"]))])%list.

(** A 502 answer with the given body. *)
Definition bad_gateway (body : string) : Response.t :=
  {| Response.status := 502; Response.text := body |}.

(** The page for a state, or an empty page when it cannot be rendered. *)
Definition view_of (s : State) : View :=
  match render s with
  | Some v => v
  | None => {| repoUrlValue := ""; submitDisabled := false; errorBanner := None;
               resultCard := None; analysisSpinner := false;
               fuzzingSpinner := false; fuzzingPanel := None;
               analysisPanel := None; contentsSpinner := false;
               listingPanel := None; filePanel := None |}
  end.

(** The page once the root of the first repository is open. *)
Definition root_view : View := view_of (ui (session_after open_root)).

(** The event loop with the parser that knows the refused scan. *)
Definition scenario_run_refused : Session -> list Event -> option Session :=
  @run scenario_ingestion scenario_analysis_refused scenario_fuzzing scenario_contents.

(** The root is open and the analysis answers with [outcome]. *)
Definition scan_with (outcome : Settled) : list Event :=
  (open_root ++ [click_analyze; settle 0 outcome])%list.

(** The requests in flight at the end of a run. *)
Definition pending (x : option Session) : option (list Request) :=
  option_map (fun y => map request (in_flight y)) x.

(** A projection of the state at the end of a run. *)
Definition at_end {A} (f : State -> A) (x : option Session) : option A :=
  option_map (fun y => f (ui y)) x.

(** * Further parts of [Home] *)

(** ** File sizes

    [formatFileSize] works on the number the service sent.  A size is an
    integer, and below [2^53] the quotients by [1024] and by [1024 * 1024]
    are exact in floating point (the divisor is a power of two), so
    [toFixed(1)] rounds the exact quotient: to the nearest tenth, a tie
    going up. *)

(** An integer in a template literal. *)
Definition integer (z : Z) : string := NilZero.string_of_int (Z.to_int z).

(** [(num / den).toFixed(1)] for [num >= 0] and a power of two [den]: the
    tenths [n] nearest to the quotient, the larger on a tie, printed with
    one digit after the point. *)
Definition tenths (num den : Z) : Z := ((20 * num + den) / (2 * den))%Z.

Definition toFixed_1 (num den : Z) : string :=
  let n := tenths num den in
  integer (n / 10) ++ "." ++ integer (n mod 10).

(** [formatFileSize(bytes)] *)
Definition formatFileSize (bytes : option Z) : string :=
  match bytes with
  | None => "Unknown size"
  | Some b =>
      if (b <? 1024)%Z then integer b ++ " B"
      else if (b <? 1024 * 1024)%Z then toFixed_1 b 1024 ++ " KB"
      else toFixed_1 b (1024 * 1024) ++ " MB"
  end.

(** ** Paths *)

(** The path [navigateUp] asks for: the current one without its last
    segment. *)
Definition parentPath (p : string) : string := join "/" (pop (split "/" p)).

(** ** Requests in flight, by the handler that waits on them *)

Definition awaits_ingestion (f : Fetch) : bool :=
  match awaiting f with handleSubmit_awaiting _ => true | _ => false end.

Definition awaits_analysis (f : Fetch) : bool :=
  match awaiting f with analyzeCode_awaiting => true | _ => false end.

Definition awaits_fuzzing (f : Fetch) : bool :=
  match awaiting f with runFuzzingTests_awaiting => true | _ => false end.

Definition awaits_listing (f : Fetch) : bool :=
  match awaiting f with fetchRepoContents_awaiting _ _ => true | _ => false end.

(** How many requests of a kind are in flight. *)
Definition count (kind : Fetch -> bool) (x : Session) : nat :=
  length (filter kind (in_flight x)).

(** A loading flag as a number of requests. *)
Definition flag (b : bool) : nat := if b then 1 else 0.

(** What the flags and the requests in flight have to do with each other
    and with the stored results. *)
Record Consistent (x : Session) : Prop := {
  one_ingestion : count awaits_ingestion x = flag (loading (ui x));
  one_analysis : count awaits_analysis x = flag (loadingAnalysis (ui x));
  one_fuzzing : count awaits_fuzzing x = flag (loadingFuzzing (ui x));
  listing_spinner : count awaits_listing x = 0%nat -> loadingContents (ui x) = false;
  no_result_while_loading : loading (ui x) = true -> result (ui x) = None;
  no_analysis_while_loading :
    loadingAnalysis (ui x) = true -> analysisResult (ui x) = None;
  no_outcome_while_loading :
    loadingFuzzing (ui x) = true -> fuzzingResult (ui x) = None }.

(** How a settled request reads to a handler that parses the body before
    anything else ([handleSubmit]) or right after the status
    ([runFuzzingTests]): it has failed when the fetch was rejected, the
    status is not 2xx, or the body does not parse. *)
Definition failed_json (T : Type) {P : JSON T} (settled : Settled) : Prop :=
  match settled with
  | Rejected _ => True
  | Fulfilled response =>
      Response.ok response = false \/
      exists message, JSON_parse (T := T) (Response.text response) = SyntaxError message
  end.

(** How a handler completed. *)
Definition completion {A} (r : Completion A * State * list Fetch) : Completion A :=
  fst (fst r).

(** The user events. *)
Definition user_event (e : Event) : bool :=
  match e with settle _ _ => false | _ => true end.

(** * Properties *)

(** ** Strings: splitting and joining paths *)

Example split_path : split "/" "programs/vault/src" = ["programs"; "vault"; "src"].
Proof. reflexivity. Qed.

Example split_empty : split "/" "" = [""].
Proof. reflexivity. Qed.

Example split_trailing_slash : split "/" "programs/" = ["programs"; ""].
Proof. reflexivity. Qed.

Example join_path : join "/" ["programs"; "vault"] = "programs/vault".
Proof. reflexivity. Qed.

Example trim_both_ends :
  trim (String (ascii_of_nat 10) "  {} " ++ String (ascii_of_nat 9) "") = "{}".
Proof. reflexivity. Qed.

Example trim_blank : trim (String (ascii_of_nat 13) (String (ascii_of_nat 10) " ")) = "".
Proof. reflexivity. Qed.

Example server_error_message : "Server error: " ++ decimal 502 = "Server error: 502".
Proof. reflexivity. Qed.

Example status_ok :
  Response.ok {| Response.status := 204; Response.text := "" |} = true /\
  Response.ok {| Response.status := 404; Response.text := "" |} = false /\
  Response.ok {| Response.status := 199; Response.text := "" |} = false.
Proof. repeat split. Qed.

Lemma split_nonempty (sep : ascii) (s : string) :
  exists seg segs, split sep s = seg :: segs.
Proof.
  induction s as [|c rest IH]; cbn.
  - now exists EmptyString, [].
  - destruct IH as (seg & segs & E). rewrite E.
    destruct (Ascii.eqb c sep); eauto.
Qed.

Lemma join_cons (sep : ascii) (seg seg' : string) (segs : list string) :
  join sep (seg :: seg' :: segs) = seg ++ String sep (join sep (seg' :: segs)).
Proof. reflexivity. Qed.

Lemma join_split (sep : ascii) (s : string) : join sep (split sep s) = s.
Proof.
  induction s as [|c rest IH]; [reflexivity|].
  cbn [split]. destruct (split_nonempty sep rest) as (seg & segs & E).
  rewrite E in *. destruct (Ascii.eqb_spec c sep) as [->|_].
  - rewrite join_cons, IH. reflexivity.
  - destruct segs as [|seg' segs].
    + cbn in *. now subst.
    + rewrite join_cons. rewrite join_cons in IH. cbn [append]. now rewrite IH.
Qed.

Lemma split_without_separator (sep : ascii) (s : string) :
  contains sep s = false -> split sep s = [s].
Proof.
  induction s as [|c rest IH]; cbn; [reflexivity|].
  intros H. apply orb_false_iff in H as [Hc Hrest].
  rewrite Hc, (IH Hrest). reflexivity.
Qed.

Lemma split_last_segment (sep : ascii) (parent seg : string) :
  contains sep seg = false ->
  split sep (parent ++ String sep seg) = (split sep parent ++ [seg])%list.
Proof.
  intros Hseg. induction parent as [|c rest IH]; cbn.
  - now rewrite Ascii.eqb_refl, (split_without_separator _ _ Hseg).
  - rewrite IH. destruct (split_nonempty sep rest) as (h & t & E). rewrite E.
    destruct (Ascii.eqb c sep); reflexivity.
Qed.

Lemma pop_last_segment (sep : ascii) (parent seg : string) :
  contains sep seg = false ->
  join sep (pop (split sep (parent ++ String sep seg))) = parent.
Proof.
  intros Hseg. rewrite (split_last_segment _ _ _ Hseg).
  unfold pop. rewrite removelast_last. apply join_split.
Qed.

Lemma pop_only_segment (sep : ascii) (seg : string) :
  contains sep seg = false -> join sep (pop (split sep seg)) = "".
Proof. intros Hseg. now rewrite (split_without_separator _ _ Hseg). Qed.

Lemma truthy_true (s : string) : s <> "" -> truthy s = true.
Proof. destruct s; [congruence | reflexivity]. Qed.

Lemma or_else_truthy (a b : string) : truthy b = true -> truthy (a ||' b) = true.
Proof. destruct a; [trivial | reflexivity]. Qed.

(** ** Handlers *)

Ltac handler_unfold :=
  unfold handleSubmit, handleSubmit_resumed, analyzeCode, analyzeCode_resumed,
    runFuzzingTests, runFuzzingTests_resumed, fetchRepoContents,
    fetchRepoContents_resumed, navigateToPath, navigateUp, resume,
    try_catch_finally, try_finally, try_catch, closure, json, parse,
    await, when, console_error, fetch, call, throw, bind, ret,
    state_after, started, requests in *.

Ltac handler_cases :=
  repeat match goal with
  | |- context [match JSON_parse ?t with _ => _ end] => destruct (JSON_parse t) eqn:?
  | |- context [if ?b then _ else _] => destruct b eqn:?
  | |- context [match ?x with Fulfilled _ => _ | Rejected _ => _ end] => destruct x eqn:?
  end; cbn in *.

Section HandlerFacts.

Context {json_ingestion : JSON RepoIngestionResponse.t}.
Context {json_analysis : JSON CodeAnalysisResponse.t}.
Context {json_fuzzing : JSON FuzzingResponse.t}.
Context {json_contents : JSON RepoContentsResponse.t}.

(** C10: a listing request leaves [currentPath] alone when it is issued.
    When it fails (the fetch is rejected, the status is not 2xx, the body is
    empty or blank, or the body does not parse) [currentPath] stays as it
    was; when its body parses, [currentPath] becomes the requested path and
    the parsed listing is stored. *)
Theorem fetchRepoContents_moves_path_only_on_success
  (repoUrl path : string) (settled : Settled) (s : State) :
  let s' := state_after (fetchRepoContents_resumed repoUrl path settled s) in
  currentPath (state_after (fetchRepoContents repoUrl path s)) = currentPath s /\
  (failed RepoContentsResponse.t settled -> currentPath s' = currentPath s) /\
  (forall data, delivers settled data ->
     currentPath s' = path /\ contentsResult s' = Some data).
Proof.
  cbn zeta. split; [reflexivity|]. split.
  - destruct settled as [response | reason]; [|reflexivity].
    intros H. handler_unfold. cbn.
    destruct (Response.ok response) eqn:Hok; cbn; [|reflexivity].
    destruct (truthy (Response.text response)) eqn:Htext; cbn; [|reflexivity].
    destruct (trim (Response.text response) =? "") eqn:Htrim; cbn; [reflexivity|].
    destruct H as [H | [H | [H | [message H]]]].
    + congruence.
    + rewrite H in Htext. discriminate.
    + rewrite H in Htrim. discriminate.
    + rewrite H. reflexivity.
  - intros data (response & -> & Hok & Htext & Htrim & Hparse).
    handler_unfold. cbn. rewrite Hok. cbn.
    rewrite (truthy_true _ Htext). cbn.
    apply String.eqb_neq in Htrim. rewrite Htrim. cbn.
    rewrite Hparse. cbn. split; reflexivity.
Qed.

(** An ingestion whose fetch is rejected, or whose body does not parse,
    leaves [result] as the submission cleared it. *)
Lemma handleSubmit_resumed_without_body (repoUrl : string) (settled : Settled)
  (s : State) :
  (exists reason, settled = Rejected reason) \/
  (exists response message,
     settled = Fulfilled response /\
     JSON_parse (T := RepoIngestionResponse.t) (Response.text response)
       = SyntaxError message) ->
  result (state_after (handleSubmit_resumed repoUrl settled s)) = result s.
Proof.
  intros [(reason & ->) | (response & message & -> & H)].
  - reflexivity.
  - handler_unfold. cbn. rewrite H. reflexivity.
Qed.

Lemma handlers_leave_fuzzingResult (settled : Settled) (repoUrl path : string)
  (s : State) :
  fuzzingResult (state_after (handleSubmit s)) = fuzzingResult s /\
  fuzzingResult (state_after (handleSubmit_resumed repoUrl settled s)) = fuzzingResult s /\
  fuzzingResult (state_after (analyzeCode s)) = fuzzingResult s /\
  fuzzingResult (state_after (analyzeCode_resumed settled s)) = fuzzingResult s /\
  fuzzingResult (state_after (fetchRepoContents repoUrl path s)) = fuzzingResult s /\
  fuzzingResult (state_after (fetchRepoContents_resumed repoUrl path settled s))
    = fuzzingResult s /\
  fuzzingResult (state_after (navigateToPath path s)) = fuzzingResult s /\
  fuzzingResult (state_after (navigateUp s)) = fuzzingResult s.
Proof.
  repeat match goal with |- _ /\ _ => split end;
    handler_unfold; cbn; handler_cases; reflexivity.
Qed.

Lemma handlers_leave_analysisResult (settled : Settled) (repoUrl path : string)
  (s : State) :
  analysisResult (state_after (handleSubmit_resumed repoUrl settled s)) = analysisResult s /\
  analysisResult (state_after (runFuzzingTests s)) = analysisResult s /\
  analysisResult (state_after (runFuzzingTests_resumed settled s)) = analysisResult s /\
  analysisResult (state_after (fetchRepoContents repoUrl path s)) = analysisResult s /\
  analysisResult (state_after (fetchRepoContents_resumed repoUrl path settled s))
    = analysisResult s /\
  analysisResult (state_after (navigateToPath path s)) = analysisResult s /\
  analysisResult (state_after (navigateUp s)) = analysisResult s.
Proof.
  repeat match goal with |- _ /\ _ => split end;
    handler_unfold; cbn; handler_cases; reflexivity.
Qed.

(** What a user event runs, by cases on the event. *)
Lemma on_event_cases (v : View) (e : Event) (h : Handler unit) :
  on_event v e = Some h ->
  match e with
  | change_repoUrl value => h = call (setRepoUrl value)
  | submit => h = handleSubmit
  | click_analyze => h = analyzeCode
  | change_instructionName value => h = call (setInstructionName value)
  | change_timeoutSeconds value => h = call (setTimeoutSeconds value)
  | click_run_fuzz => h = runFuzzingTests
  | click_up => h = navigateUp
  | click_row _ => (exists path, h = navigateToPath path) \/ h = ret tt
  | settle _ _ => False
  end.
Proof.
  destruct e; cbn;
    repeat match goal with
    | |- context [match ?t with _ => _ end] => destruct t; try discriminate
    end;
    intros [= <-]; eauto.
Qed.

Lemma step_cases (x y : Session) (e : Event) :
  step x e = Some y ->
  (exists i outcome f,
     e = settle i outcome /\ nth_error (in_flight x) i = Some f /\
     ui y = state_after (resume (awaiting f) outcome (ui x))) \/
  (exists v h,
     render (ui x) = Some v /\ on_event v e = Some h /\
     ui y = state_after (h (ui x))).
Proof.
  unfold step. destruct e.
  1-8: destruct (render (ui x)) as [v|]; [|discriminate];
       match goal with
       | |- match ?t with _ => _ end = _ -> _ =>
           destruct t as [h|] eqn:Hh; [|discriminate]
       end;
       intros [= <-]; right; exists v, h; auto.
  destruct (nth_error (in_flight x) index) as [f|] eqn:Hf; [|discriminate].
  intros [= <-]. left. exists index, outcome, f. auto.
Qed.

(** C9: a fuzz run, failed or not, never touches [analysisResult], and an
    analysis, failed or not, never touches [fuzzingResult]: neither the part
    before the request nor the part after it settles.  Over the whole event
    loop, [fuzzingResult] changes only when a fuzz run starts or settles, and
    [analysisResult] only when an analysis starts or settles or a repository
    is submitted, which clears it. *)
Theorem unrelated_results_survive_failures (settled : Settled) (s : State) :
  analysisResult (state_after (runFuzzingTests s)) = analysisResult s /\
  analysisResult (state_after (runFuzzingTests_resumed settled s)) = analysisResult s /\
  fuzzingResult (state_after (analyzeCode s)) = fuzzingResult s /\
  fuzzingResult (state_after (analyzeCode_resumed settled s)) = fuzzingResult s /\
  analysisResult (state_after (handleSubmit s)) = None /\
  (forall (x y : Session) (e : Event),
     step x e = Some y ->
     (fuzzingResult (ui y) = fuzzingResult (ui x) \/
      e = click_run_fuzz \/
      exists i outcome f,
        e = settle i outcome /\ nth_error (in_flight x) i = Some f /\
        awaiting f = runFuzzingTests_awaiting) /\
     (analysisResult (ui y) = analysisResult (ui x) \/
      e = submit \/ e = click_analyze \/
      exists i outcome f,
        e = settle i outcome /\ nth_error (in_flight x) i = Some f /\
        awaiting f = analyzeCode_awaiting)).
Proof.
  repeat match goal with |- _ /\ _ => split end;
    try (handler_unfold; cbn; handler_cases; reflexivity).
  intros x y e Hstep.
  destruct (step_cases _ _ _ Hstep) as [(i & outcome & f & -> & Hf & ->) |
                                         (v & h & _ & Hh & ->)].
  - destruct (awaiting f) as [url | | | url path] eqn:Hk; cbn [resume]; split;
      first [ left; handler_unfold; cbn; handler_cases; reflexivity
            | right; right; exists i, outcome, f; auto
            | right; right; right; exists i, outcome, f; auto ].
  - apply on_event_cases in Hh.
    destruct e; try contradiction;
      try (destruct Hh as [(path & ->) | ->]); try subst h; split;
      first [ left; handler_unfold; cbn; handler_cases; reflexivity
            | right; left; reflexivity
            | right; right; left; reflexivity ].
Qed.

(** C8: at the root ([currentPath] empty) [navigateUp] does nothing: same
    state, no request.  Otherwise it asks for the listing of the path with
    its last segment removed: [parent] when the path is [parent/seg] with no
    slash in [seg], the root when the path has no slash at all; and it leaves
    [currentPath] alone until that request settles. *)
Theorem navigateUp_pops_last_segment (s : State) :
  (currentPath s = "" -> navigateUp s = (Normal tt, s, [])) /\
  (forall parent seg,
     contains "/" seg = false ->
     currentPath s = parent ++ "/" ++ seg ->
     navigateUp s = fetchRepoContents (repoUrl s) parent s /\
     requests (navigateUp s)
       = [repo_contents (repoUrl s) (if truthy parent then Some parent else None)] /\
     currentPath (state_after (navigateUp s)) = currentPath s) /\
  (currentPath s <> "" ->
   contains "/" (currentPath s) = false ->
     navigateUp s = fetchRepoContents (repoUrl s) "" s /\
     requests (navigateUp s) = [repo_contents (repoUrl s) None] /\
     currentPath (state_after (navigateUp s)) = currentPath s).
Proof.
  split; [|split].
  - intros H. unfold navigateUp, closure. rewrite H. reflexivity.
  - intros parent seg Hseg Hpath.
    assert (Hup : navigateUp s = fetchRepoContents (repoUrl s) parent s).
    { unfold navigateUp, closure. rewrite Hpath.
      replace (truthy (parent ++ "/" ++ seg)) with true
        by (destruct parent; reflexivity).
      cbn [negb]. cbv zeta.
      change ("/" ++ seg) with (String "/" seg).
      now rewrite (pop_last_segment _ _ _ Hseg). }
    rewrite Hup. repeat split.
  - intros Hne Hfree.
    assert (Hup : navigateUp s = fetchRepoContents (repoUrl s) "" s).
    { unfold navigateUp, closure. rewrite (truthy_true _ Hne).
      cbn [negb]. cbv zeta. now rewrite (pop_only_segment _ _ Hfree). }
    rewrite Hup. repeat split.
Qed.

End HandlerFacts.

(** ** The event loop: requests settling out of order *)

Lemma nth_error_remove_nth_before {A} (l : list A) (i j : nat) :
  (i < j)%nat -> nth_error (remove_nth j l) i = nth_error l i.
Proof.
  revert i j. induction l as [|x l IH]; intros i j Hij.
  - now destruct j.
  - destruct j as [|j]; [lia|]. destruct i as [|i]; cbn; [reflexivity|].
    apply IH. lia.
Qed.

Lemma nth_error_app_left {A} (l extra : list A) (i : nat) (a : A) :
  nth_error l i = Some a -> nth_error (l ++ extra)%list i = Some a.
Proof.
  intros H. rewrite nth_error_app1; [assumption|].
  apply nth_error_Some. congruence.
Qed.

Section EventLoopFacts.

Context {json_ingestion : JSON RepoIngestionResponse.t}.
Context {json_analysis : JSON CodeAnalysisResponse.t}.
Context {json_fuzzing : JSON FuzzingResponse.t}.
Context {json_contents : JSON RepoContentsResponse.t}.

Lemma step_settle (x : Session) (i : nat) (outcome : Settled) (f : Fetch) :
  nth_error (in_flight x) i = Some f ->
  step x (settle i outcome) =
    Some {| ui := state_after (resume (awaiting f) outcome (ui x));
            in_flight := (remove_nth i (in_flight x)
                          ++ started (resume (awaiting f) outcome (ui x)))%list |}.
Proof. intros H. cbn. now rewrite H. Qed.

Lemma settle_later_then_earlier (x : Session) (i j : nat) (fa fb : Fetch)
  (settledA settledB : Settled) :
  (i < j)%nat ->
  nth_error (in_flight x) i = Some fa ->
  nth_error (in_flight x) j = Some fb ->
  exists y,
    run x [settle j settledB; settle i settledA] = Some y /\
    ui y = state_after (resume (awaiting fa) settledA
             (state_after (resume (awaiting fb) settledB (ui x)))).
Proof.
  intros Hij Ha Hb. cbn [run].
  rewrite (step_settle _ _ _ _ Hb).
  erewrite step_settle.
  - eexists. split; reflexivity.
  - cbn [in_flight]. apply nth_error_app_left.
    now rewrite nth_error_remove_nth_before.
Qed.

Lemma fetchRepoContents_resumed_delivers (repoUrl path : string) (settled : Settled)
  (data : RepoContentsResponse.t) (s : State) :
  delivers settled data ->
  fetchRepoContents_resumed repoUrl path settled s =
    (Normal tt,
     setLoadingContents false (setCurrentPath path (setContentsResult (Some data) s)),
     []).
Proof.
  intros (response & -> & Hok & Htext & Htrim & Hparse).
  handler_unfold. cbn. rewrite Hok. cbn.
  rewrite (truthy_true _ Htext). cbn.
  apply String.eqb_neq in Htrim. rewrite Htrim. cbn.
  rewrite Hparse. reflexivity.
Qed.

Lemma fetchRepoContents_resumed_failed (repoUrl path : string) (settled : Settled)
  (s : State) :
  failed RepoContentsResponse.t settled ->
  exists err,
    fetchRepoContents_resumed repoUrl path settled s =
      (Normal tt,
       setLoadingContents false
         (setContentsResult (Some {|
            RepoContentsResponse.success := false;
            RepoContentsResponse.message := err ||' "Failed to fetch repository contents";
            RepoContentsResponse.contents := None;
            RepoContentsResponse.file_content := None;
            RepoContentsResponse.repo_url := repoUrl;
            RepoContentsResponse.path := path |})
            (setError (err ||' "An error occurred while fetching contents") s)),
       []).
Proof.
  destruct settled as [response | reason]; intros H.
  - handler_unfold. cbn.
    destruct (Response.ok response) eqn:Hok; cbn;
      [|exists (Response.text response
                ||' ("Server error: " ++ decimal (Response.status response)));
        reflexivity].
    destruct (truthy (Response.text response)) eqn:Htext; cbn;
      [|exists "Empty response from server"; reflexivity].
    destruct (trim (Response.text response) =? "") eqn:Htrim; cbn;
      [exists "Empty response from server"; reflexivity|].
    destruct H as [H | [H | [H | [message H]]]].
    + congruence.
    + rewrite H in Htext. discriminate.
    + rewrite H in Htrim. discriminate.
    + rewrite H. cbn. exists "Invalid response format from server". reflexivity.
  - exists reason. reflexivity.
Qed.

Lemma analyzeCode_resumed_delivers (settled : Settled) (data : CodeAnalysisResponse.t)
  (s : State) :
  delivers settled data ->
  analyzeCode_resumed settled s =
    (Normal tt, setLoadingAnalysis false (setAnalysisResult (Some data) s), []).
Proof.
  intros (response & -> & Hok & Htext & Htrim & Hparse).
  handler_unfold. cbn. rewrite Hok. cbn.
  rewrite (truthy_true _ Htext). cbn.
  apply String.eqb_neq in Htrim. rewrite Htrim. cbn.
  rewrite Hparse. reflexivity.
Qed.

Lemma analyzeCode_resumed_failed (settled : Settled) (s : State) :
  failed CodeAnalysisResponse.t settled ->
  exists err,
    analyzeCode_resumed settled s =
      (Normal tt,
       setLoadingAnalysis false
         (setAnalysisResult (Some {|
            CodeAnalysisResponse.success := false;
            CodeAnalysisResponse.message := err ||' "Failed to analyze code";
            CodeAnalysisResponse.bugs := Some [] |})
            (setError (err ||' "An error occurred during code analysis") s)),
       []).
Proof.
  destruct settled as [response | reason]; intros H.
  - handler_unfold. cbn.
    destruct (Response.ok response) eqn:Hok; cbn;
      [|exists (Response.text response
                ||' ("Server error: " ++ decimal (Response.status response)));
        reflexivity].
    destruct (truthy (Response.text response)) eqn:Htext; cbn;
      [|exists "Empty response from server"; reflexivity].
    destruct (trim (Response.text response) =? "") eqn:Htrim; cbn;
      [exists "Empty response from server"; reflexivity|].
    destruct H as [H | [H | [H | [message H]]]].
    + congruence.
    + rewrite H in Htext. discriminate.
    + rewrite H in Htrim. discriminate.
    + rewrite H. cbn. exists "Invalid response format from server". reflexivity.
  - exists reason. reflexivity.
Qed.

(** C4, as the code has it: no listing request is stamped, so the response
    that settles last is the one that stays.  Requests in flight are kept in
    the order they were issued.  Of two listing requests in flight, [a]
    issued before [b], let [b] settle first and [a] after it.
    If the response for [a] parses, the page ends on the listing of [a] with
    [currentPath] at [a]; if the request for [a] fails, the page ends on the
    failure record of [a] and [currentPath] stays where the response for [b]
    left it. *)
Theorem last_settled_listing_wins (x : Session) (i j : nat) (fa fb : Fetch)
  (repoUrl a b : string) (settledA settledB : Settled) :
  (i < j)%nat ->
  nth_error (in_flight x) i = Some fa ->
  nth_error (in_flight x) j = Some fb ->
  awaiting fa = fetchRepoContents_awaiting repoUrl a ->
  awaiting fb = fetchRepoContents_awaiting repoUrl b ->
  exists y,
    run x [settle j settledB; settle i settledA] = Some y /\
    (forall data, delivers settledA data ->
       contentsResult (ui y) = Some data /\ currentPath (ui y) = a) /\
    (failed RepoContentsResponse.t settledA ->
       (exists r, contentsResult (ui y) = Some r /\
                  RepoContentsResponse.success r = false /\
                  RepoContentsResponse.contents r = None /\
                  RepoContentsResponse.path r = a) /\
       currentPath (ui y) =
         currentPath (state_after (fetchRepoContents_resumed repoUrl b settledB (ui x)))).
Proof.
  intros Hij Ha Hb Hka Hkb.
  destruct (settle_later_then_earlier x i j fa fb settledA settledB Hij Ha Hb)
    as (y & Hrun & Hui).
  exists y. split; [exact Hrun|].
  rewrite Hui, Hka, Hkb. cbn [resume]. split.
  - intros data Hd. rewrite (fetchRepoContents_resumed_delivers _ _ _ _ _ Hd).
    split; reflexivity.
  - intros Hf.
    destruct (fetchRepoContents_resumed_failed repoUrl a settledA
                (state_after (fetchRepoContents_resumed repoUrl b settledB (ui x))) Hf)
      as (err & ->).
    split; [|reflexivity].
    eexists. repeat split.
Qed.

(** Stored against shown.  From the same state, let one analysis deliver a
    successful result with an empty bug list and another fail.  What is
    stored differs in [success] (true against false), both with an empty bug
    list.  The analysis panel does not read [success]: it shows the message
    and, for both, the same body saying no security issue was found, so the
    two panels are the same exactly when the two messages are.  The failed
    scan also sets a non-empty [error], which the successful one leaves
    alone. *)
Theorem zero_findings_and_failed_scan (s : State) (settledOk settledFailed : Settled)
  (data : CodeAnalysisResponse.t) :
  delivers settledOk data ->
  CodeAnalysisResponse.success data = true ->
  CodeAnalysisResponse.bugs data = Some [] ->
  failed CodeAnalysisResponse.t settledFailed ->
  let ok := state_after (analyzeCode_resumed settledOk s) in
  let ko := state_after (analyzeCode_resumed settledFailed s) in
  analysisResult ok = Some data /\
  error ok = error s /\
  truthy (error ko) = true /\
  exists fallback,
    analysisResult ko = Some fallback /\
    CodeAnalysisResponse.success fallback = false /\
    CodeAnalysisResponse.bugs fallback = Some [] /\
    analysisResult ok <> analysisResult ko /\
    analysisBody (renderAnalysis data) = no_security_issues_found /\
    analysisBody (renderAnalysis fallback) = no_security_issues_found /\
    (renderAnalysis data = renderAnalysis fallback <->
     CodeAnalysisResponse.message data = CodeAnalysisResponse.message fallback).
Proof.
  intros Hd Hsuccess Hbugs Hf. cbn zeta.
  rewrite (analyzeCode_resumed_delivers _ _ _ Hd).
  destruct (analyzeCode_resumed_failed settledFailed s Hf) as (err & ->).
  unfold state_after. cbn.
  split; [reflexivity|]. split; [reflexivity|].
  split; [now apply or_else_truthy|].
  eexists. split; [reflexivity|]. cbn.
  split; [reflexivity|]. split; [reflexivity|].
  split; [intros [= E]; rewrite E in Hsuccess; discriminate|].
  unfold renderAnalysis. rewrite Hbugs. cbn.
  split; [reflexivity|]. split; [reflexivity|].
  split; [intros [= E]; exact E | intros E; now rewrite E].
Qed.

End EventLoopFacts.

(** ** Concrete sessions *)

(** A closed statement about a run: split the conjunctions, evaluate. *)
Ltac conjuncts := cbv zeta; repeat match goal with |- _ /\ _ => split end.
Ltac by_evaluation := conjuncts; vm_compute; first [reflexivity | discriminate].

Lemma runFuzzingTests_sends_any_timeout (s : State) :
  truthy (repoUrl s) = true ->
  requests (runFuzzingTests s)
    = [fuzz_test (repoUrl s) (instructionName s) (timeoutSeconds s)].
Proof. intros H. handler_unfold. rewrite H. reflexivity. Qed.

(** C1, on the code: [runFuzzingTests] checks only that [repoUrl] is not
    empty.  With the repository ingested, the time budget set to 500, or to
    0, and the fuzz button pressed, the request to [/api/fuzz-test] is sent
    with that budget. *)
Theorem fuzz_request_sent_with_timeout_out_of_range :
  pending (scenario_run start
             (ingest_with (answer ingested_body)
              ++ [change_timeoutSeconds 500; click_run_fuzz]))
    = Some [repo_contents vault_url None; fuzz_test vault_url "increment" 500] /\
  pending (scenario_run start
             (ingest_with (answer ingested_body)
              ++ [change_timeoutSeconds 0; click_run_fuzz]))
    = Some [repo_contents vault_url None; fuzz_test vault_url "increment" 0].
Proof. by_evaluation. Qed.

(** C2, on the code: [handleSubmit] clears the error, the ingestion result,
    the listing, the path and the analysis result, and starts the ingestion;
    it never touches [fuzzingResult].  After an analysis and a fuzz run on
    one repository, submitting another leaves the fuzz outcome of the first
    stored and on the page. *)
Theorem fuzz_outcome_survives_new_submission :
  (forall s : State,
     let s' := state_after (handleSubmit s) in
     error s' = "" /\ result s' = None /\ contentsResult s' = None /\
     currentPath s' = "" /\ analysisResult s' = None /\
     fuzzingResult s' = fuzzingResult s /\
     requests (handleSubmit s) = [ingest_repo (repoUrl s)]) /\
  let x := scenario_run start
             (open_root
              ++ [click_analyze; click_run_fuzz;
                  settle 0 (answer clean_scan_body); settle 0 (answer fuzzed_body);
                  change_repoUrl "https://github.com/acme/other"; submit]) in
  at_end analysisResult x = Some None /\
  at_end fuzzingResult x = Some (Some fuzzed) /\
  at_end (fun s => option_map fuzzingPanel (render s)) x
    = Some (Some (Some (renderFuzzing fuzzed))) /\
  pending x = Some [ingest_repo "https://github.com/acme/other"].
Proof.
  split.
  - intros s. conjuncts; reflexivity.
  - by_evaluation.
Qed.

Lemma controls_follow_anchor_flag (s : State) (v : View) :
  render s = Some v ->
  offered_controls v =
    match result s with
    | Some r =>
        if holds (RepoIngestionResponse.is_anchor_project r)
        then Some (renderControls s) else None
    | None => None
    end.
Proof.
  unfold render. destruct (result s) as [r|]; cbn.
  - unfold renderResult. destruct (RepoIngestionResponse.repo r); cbn; [|discriminate].
    intros [= <-]. reflexivity.
  - intros [= <-]. reflexivity.
Qed.

(** C3, on the code: the analyze and fuzz controls are shown whenever the
    stored ingestion result has [is_anchor_project] true; [success] is not
    read.  After an ingestion answered with [success] false and
    [is_anchor_project] true, no listing is requested, and pressing either
    button sends its request for that repository.  The listing panel is shown
    for any stored listing: when the listing of an earlier repository
    arrives after a repository that is not an Anchor project was ingested,
    its rows are on the page, and a click on one requests a listing of the
    new repository. *)
Theorem analysis_offered_after_unsuccessful_ingestion :
  RepoIngestionResponse.success not_ingested = false /\
  at_end result (scenario_run start (ingest_with (answer not_ingested_body)))
    = Some (Some not_ingested) /\
  pending (scenario_run start (ingest_with (answer not_ingested_body))) = Some [] /\
  pending (scenario_run start
             (ingest_with (answer not_ingested_body) ++ [click_analyze]))
    = Some [analyze_code vault_url] /\
  pending (scenario_run start
             (ingest_with (answer not_ingested_body) ++ [click_run_fuzz]))
    = Some [fuzz_test vault_url "increment" 60] /\
  RepoIngestionResponse.is_anchor_project not_anchor = Some false /\
  at_end result (scenario_run start late_listing) = Some (Some not_anchor) /\
  at_end repoUrl (scenario_run start late_listing) = Some docs_url /\
  pending (scenario_run start late_listing) = Some [] /\
  pending (scenario_run start (late_listing ++ [click_row 0]))
    = Some [repo_contents docs_url (Some "a")].
Proof. by_evaluation. Qed.

(** C5, on the code: [handleSubmit] stores the parsed body before it looks
    at the status.  An ingestion answered 500 with a JSON body leaves that
    body in [result], beside the error; the body has no [repo], so the page
    cannot be rendered. *)
Theorem failed_ingestion_populates_result :
  let x := scenario_run start (ingest_with (server_error ingestion_error_body)) in
  at_end result x = Some (Some ingestion_error) /\
  at_end error x = Some "GitHub API rate limit exceeded" /\
  at_end render x = Some None.
Proof. by_evaluation. Qed.

Lemma unrelated_results_survive_failures_witness :
  let x := session_after fuzz_in_flight in
  let y := session_after (fuzz_in_flight ++ [settle 0 (server_error "fuzz runner crashed")]) in
  (fuzzingResult (ui y) = fuzzingResult (ui x) \/
   settle 0 (server_error "fuzz runner crashed") = click_run_fuzz \/
   exists i outcome f,
     settle 0 (server_error "fuzz runner crashed") = settle i outcome /\
     nth_error (in_flight x) i = Some f /\
     awaiting f = runFuzzingTests_awaiting) /\
  (analysisResult (ui y) = analysisResult (ui x) \/
   settle 0 (server_error "fuzz runner crashed") = submit \/
   settle 0 (server_error "fuzz runner crashed") = click_analyze \/
   exists i outcome f,
     settle 0 (server_error "fuzz runner crashed") = settle i outcome /\
     nth_error (in_flight x) i = Some f /\
     awaiting f = analyzeCode_awaiting).
Proof.
  apply (proj2 (proj2 (proj2 (proj2 (proj2
           (@unrelated_results_survive_failures
              scenario_ingestion scenario_analysis scenario_fuzzing scenario_contents
              (server_error "fuzz runner crashed") initial)))))
           (session_after fuzz_in_flight)
           (session_after (fuzz_in_flight ++ [settle 0 (server_error "fuzz runner crashed")]))
           (settle 0 (server_error "fuzz runner crashed"))).
  vm_compute. reflexivity.
Defined.

(** The failed fuzz run leaves the clean scan on the page, beside its error. *)
Example clean_scan_survives_fuzz_failure :
  let y := scenario_run start
             (fuzz_in_flight ++ [settle 0 (server_error "fuzz runner crashed")]) in
  at_end analysisResult y = Some (Some clean_scan) /\
  at_end fuzzingResult y = Some None /\
  at_end error y = Some "fuzz runner crashed".
Proof. by_evaluation. Qed.

(** C4 fails on the code: the rows [a] and [b] of the root are clicked in
    that order, so the request for [a] is issued before the one for [b];
    the response for [b] arrives first and the one for [a] after it.  The
    page ends on [a], not on [b]. *)
Lemma stale_listing_overwrites_later_one :
  pending (scenario_run start (open_root ++ [click_row 0; click_row 1]))
    = Some [repo_contents vault_url (Some "a"); repo_contents vault_url (Some "b")] /\
  let x := scenario_run start
             (open_root
              ++ [click_row 0; click_row 1;
                  settle 1 (answer (listing_body "b" []));
                  settle 0 (answer (listing_body "a" ["a/src"]))]) in
  at_end currentPath x = Some "a" /\
  at_end contentsResult x = Some (Some (listing "a" ["a/src"])) /\
  at_end currentPath x <> Some "b" /\
  at_end contentsResult x <> Some (Some (listing "b" [])).
Proof. by_evaluation. Qed.

Lemma last_settled_listing_wins_witness :
  exists y,
    scenario_run (session_after (open_root ++ [click_row 0; click_row 1]))
      [settle 1 (answer (listing_body "b" []));
       settle 0 (answer (listing_body "a" ["a/src"]))] = Some y /\
    (forall data,
       delivers (P := scenario_contents) (answer (listing_body "a" ["a/src"])) data ->
       contentsResult (ui y) = Some data /\ currentPath (ui y) = "a") /\
    (failed RepoContentsResponse.t (P := scenario_contents)
       (answer (listing_body "a" ["a/src"])) ->
       (exists r, contentsResult (ui y) = Some r /\
                  RepoContentsResponse.success r = false /\
                  RepoContentsResponse.contents r = None /\
                  RepoContentsResponse.path r = "a") /\
       currentPath (ui y) =
         currentPath
           (state_after
              (fetchRepoContents_resumed (json_contents := scenario_contents)
                 vault_url "b" (answer (listing_body "b" []))
                 (ui (session_after (open_root ++ [click_row 0; click_row 1])))))).
Proof.
  apply (@last_settled_listing_wins
           scenario_ingestion scenario_analysis scenario_fuzzing scenario_contents
           (session_after (open_root ++ [click_row 0; click_row 1])) 0 1
           {| request := repo_contents vault_url (Some "a");
              awaiting := fetchRepoContents_awaiting vault_url "a" |}
           {| request := repo_contents vault_url (Some "b");
              awaiting := fetchRepoContents_awaiting vault_url "b" |}
           vault_url "a" "b").
  - lia.
  - vm_compute. reflexivity.
  - vm_compute. reflexivity.
  - reflexivity.
  - reflexivity.
Defined.

(** C6, on the code: the fallback that a failed analysis stores, and a scan
    answered with [success] false, are kept apart from a clean scan in what is
    stored, by [success].  The analysis panel never reads [success]: it
    branches on the bug list alone, so for a failed scan it shows the same
    body as for a clean one, saying that no security issue was found.  An
    analysis answered 500 is stored with [success] false and shown with that
    body; a scan answered 200 with [success] false is stored as it came,
    with no error set, and shown with that body too. *)
Theorem failed_scan_shown_as_no_issues_found :
  (forall (r : CodeAnalysisResponse.t) (b : bool),
     renderAnalysis {| CodeAnalysisResponse.success := b;
                       CodeAnalysisResponse.message := CodeAnalysisResponse.message r;
                       CodeAnalysisResponse.bugs := CodeAnalysisResponse.bugs r |}
     = renderAnalysis r) /\
  let clean := scenario_run start (scan_with (answer clean_scan_body)) in
  let crashed :=
    scenario_run start (scan_with (server_error "Analysis service unavailable")) in
  let refused := scenario_run_refused start (scan_with (answer refused_scan_body)) in
  at_end analysisResult clean = Some (Some clean_scan) /\
  at_end (fun s => option_map renderAnalysis (analysisResult s)) clean
    = Some (Some {| analysisMessage := "No issues detected";
                    analysisBody := no_security_issues_found |}) /\
  at_end analysisResult crashed
    = Some (Some {| CodeAnalysisResponse.success := false;
                    CodeAnalysisResponse.message := "Analysis service unavailable";
                    CodeAnalysisResponse.bugs := Some [] |}) /\
  at_end (fun s => option_map renderAnalysis (analysisResult s)) crashed
    = Some (Some {| analysisMessage := "Analysis service unavailable";
                    analysisBody := no_security_issues_found |}) /\
  at_end error crashed = Some "Analysis service unavailable" /\
  at_end analysisResult refused = Some (Some refused_scan) /\
  at_end (fun s => option_map renderAnalysis (analysisResult s)) refused
    = Some (Some {| analysisMessage := "Analysis failed: program could not be built";
                    analysisBody := no_security_issues_found |}) /\
  at_end error refused = Some "" /\
  at_end (fun s => option_map errorBanner (render s)) refused = Some (Some None).
Proof.
  split.
  - intros r b. reflexivity.
  - by_evaluation.
Qed.

(** One analysis answers 200 with a successful, empty result whose message
    is [No issues detected]; another answers 500 with that text as its body.  The stored results differ in [success] only, and
    the analysis panel is the same for both.  Once a row is clicked, which
    clears the error, the two pages are the same altogether. *)
Lemma failed_scan_rendered_as_clean_scan :
  let scan outcome := (open_root ++ [click_analyze; settle 0 outcome])%list in
  let ok := scenario_run start (scan (answer clean_scan_body)) in
  let ko := scenario_run start (scan (server_error "No issues detected")) in
  at_end analysisResult ok = Some (Some clean_scan) /\
  at_end analysisResult ko
    = Some (Some {| CodeAnalysisResponse.success := false;
                    CodeAnalysisResponse.message := "No issues detected";
                    CodeAnalysisResponse.bugs := Some [] |}) /\
  at_end (fun s => option_map renderAnalysis (analysisResult s)) ok
    = at_end (fun s => option_map renderAnalysis (analysisResult s)) ko /\
  at_end render
    (scenario_run start (scan (answer clean_scan_body) ++ [click_row 0]))
    = at_end render
        (scenario_run start (scan (server_error "No issues detected") ++ [click_row 0])) /\
  at_end render
    (scenario_run start (scan (answer clean_scan_body) ++ [click_row 0])) <> None.
Proof. by_evaluation. Qed.

Lemma answer_delivers_clean_scan :
  delivers (P := scenario_analysis) (answer clean_scan_body) clean_scan.
Proof.
  exists {| Response.status := 200; Response.text := clean_scan_body |}.
  conjuncts; vm_compute; first [reflexivity | discriminate].
Defined.

Lemma zero_findings_and_failed_scan_witness :
  let ok := state_after
              (analyzeCode_resumed (json_analysis := scenario_analysis)
                 (answer clean_scan_body) initial) in
  let ko := state_after
              (analyzeCode_resumed (json_analysis := scenario_analysis)
                 (Rejected "Failed to fetch") initial) in
  analysisResult ok = Some clean_scan /\
  error ok = error initial /\
  truthy (error ko) = true /\
  exists fallback,
    analysisResult ko = Some fallback /\
    CodeAnalysisResponse.success fallback = false /\
    CodeAnalysisResponse.bugs fallback = Some [] /\
    analysisResult ok <> analysisResult ko /\
    analysisBody (renderAnalysis clean_scan) = no_security_issues_found /\
    analysisBody (renderAnalysis fallback) = no_security_issues_found /\
    (renderAnalysis clean_scan = renderAnalysis fallback <->
     CodeAnalysisResponse.message clean_scan = CodeAnalysisResponse.message fallback).
Proof.
  apply (@zero_findings_and_failed_scan scenario_analysis initial
           (answer clean_scan_body) (Rejected "Failed to fetch") clean_scan).
  - exact answer_delivers_clean_scan.
  - reflexivity.
  - reflexivity.
  - exact I.
Defined.

Lemma navigateUp_pops_last_segment_witness :
  navigateUp in_src = fetchRepoContents vault_url "programs/vault" in_src /\
  requests (navigateUp in_src) = [repo_contents vault_url (Some "programs/vault")] /\
  currentPath (state_after (navigateUp in_src)) = "programs/vault/src".
Proof.
  apply (proj1 (proj2 (navigateUp_pops_last_segment in_src)) "programs/vault" "src").
  - reflexivity.
  - reflexivity.
Defined.

Lemma answer_delivers_listing :
  delivers (P := scenario_contents) (answer (listing_body "a" ["a/src"]))
    (listing "a" ["a/src"]).
Proof.
  exists {| Response.status := 200; Response.text := listing_body "a" ["a/src"] |}.
  conjuncts; vm_compute; first [reflexivity | discriminate].
Defined.

Lemma fetchRepoContents_moves_path_only_on_success_witness :
  currentPath
    (state_after
       (fetchRepoContents_resumed (json_contents := scenario_contents)
          vault_url "a" (server_error "upstream timed out") in_src))
    = "programs/vault/src" /\
  (currentPath
     (state_after
        (fetchRepoContents_resumed (json_contents := scenario_contents)
           vault_url "a" (answer (listing_body "a" ["a/src"])) in_src))
     = "a" /\
   contentsResult
     (state_after
        (fetchRepoContents_resumed (json_contents := scenario_contents)
           vault_url "a" (answer (listing_body "a" ["a/src"])) in_src))
     = Some (listing "a" ["a/src"])).
Proof.
  split.
  - apply (proj1 (proj2 (@fetchRepoContents_moves_path_only_on_success
                             scenario_contents
                             vault_url "a" (server_error "upstream timed out") in_src))).
    left. reflexivity.
  - apply (proj2 (proj2 (@fetchRepoContents_moves_path_only_on_success
                             scenario_contents
                             vault_url "a" (answer (listing_body "a" ["a/src"])) in_src))).
    exact answer_delivers_listing.
Defined.

(** ** Report attestation *)

Example sha256_constants :
  length SHA256.K = 64%nat /\
  nth 0 SHA256.K 0%Z = 0x428a2f98%Z /\
  nth 63 SHA256.K 0%Z = 0xc67178f2%Z /\
  SHA256.h0 SHA256.H0 = 0x6a09e667%Z /\
  SHA256.h7 SHA256.H0 = 0x5be0cd19%Z.
Proof. by_evaluation. Qed.

Example sha256_abc :
  sha256 "abc" = "ba7816bf8f01cfea414140de5dae2223b00361a396177a9cb410ff61f20015ad".
Proof. vm_compute. reflexivity. Qed.

Example sha256_empty :
  sha256 "" = "e3b0c44298fc1c149afbf4c8996fb92427ae41e4649b934ca495991b7852b855".
Proof. vm_compute. reflexivity. Qed.

Example sha256_two_blocks :
  sha256 "abcdbcdecdefdefgefghfghighijhijkijkljklmklmnlmnomnopnopq"
  = "248d6a61d20638b8e5c026930c3e6039a33ce45964ff2167f6ecedd419db06c1".
Proof. vm_compute. reflexivity. Qed.

(** The hash of the sample answer in the documentation starts as that of
    [Hello World] does. *)
Example sha256_hello_world :
  substring 0 9 (sha256 "Hello World") = "a591a6d40".
Proof. vm_compute. reflexivity. Qed.

(** No normalization: a trailing line feed changes the hash. *)
Example sha256_sees_trailing_newline :
  sha256 (String (ascii_of_nat 10) "") <> sha256 "" /\
  sha256 ("abc" ++ String (ascii_of_nat 10) "") <> sha256 "abc".
Proof. split; vm_compute; discriminate. Qed.

Lemma length_app (a b : string) :
  String.length (a ++ b) = (String.length a + String.length b)%nat.
Proof. induction a as [|c a IH]; cbn; [reflexivity | now rewrite IH]. Qed.

Lemma hex_word_length (x : Z) : String.length (SHA256.hex_word x) = 8%nat.
Proof. reflexivity. Qed.

(** The hash is a string of 64 hexadecimal digits. *)
Lemma sha256_length (s : string) : String.length (sha256 s) = 64%nat.
Proof.
  unfold sha256, SHA256.hex.
  repeat rewrite length_app. repeat rewrite hex_word_length. reflexivity.
Qed.

(** C7: whenever [logReport] answers, the [hash] field of its answer is
    the SHA-256 of the report as submitted, the hash a client computes from
    the same string, and the signature is the one the ledger gave for that
    hash; it answers exactly when the ledger accepts the hash. *)
Theorem logReport_hash_is_sha256 (store : string -> option string) (s : string) :
  match logReport store s with
  | Some r =>
      LogReportResponse.hash r = sha256 s /\
      store (sha256 s) = Some (LogReportResponse.transaction_signature r)
  | None => store (sha256 s) = None
  end.
Proof.
  unfold logReport. destruct (store (sha256 s)) as [signature|]; cbn.
  - split; reflexivity.
  - reflexivity.
Qed.

(** * Further properties of the page *)

(** ** Requests in flight and loading flags *)

Lemma count_filter_app {A} (p : A -> bool) (l l' : list A) :
  length (filter p (l ++ l')) = (length (filter p l) + length (filter p l'))%nat.
Proof. now rewrite filter_app, List.length_app. Qed.

Lemma count_filter_remove_nth {A} (p : A -> bool) (l : list A) (i : nat) (a : A) :
  nth_error l i = Some a ->
  length (filter p l) = (length (filter p (remove_nth i l)) + flag (p a))%nat.
Proof.
  revert i. induction l as [|b l IH]; intros [|i] H; cbn in *; try discriminate.
  - injection H as ->. destruct (p a); cbn; lia.
  - destruct (p b); cbn; rewrite (IH _ H); lia.
Qed.

Lemma or_else_twice (a b c : string) :
  truthy b = true -> (a ||' b) ||' c = a ||' b.
Proof. destruct a, b; cbn; try discriminate; reflexivity. Qed.

Section SessionFacts.
Context {json_ingestion : JSON RepoIngestionResponse.t}.
Context {json_analysis : JSON CodeAnalysisResponse.t}.
Context {json_fuzzing : JSON FuzzingResponse.t}.
Context {json_contents : JSON RepoContentsResponse.t}.

Lemma Consistent_start : Consistent start.
Proof. split; cbn; congruence. Qed.

(** What a settled request changes: the flags, the results of the other
    operations, and the requests it starts. *)
Lemma handleSubmit_resumed_effect (repoUrl : string) (outcome : Settled) (s : State) :
  let r := handleSubmit_resumed repoUrl outcome s in
  loading (state_after r) = false /\
  loadingAnalysis (state_after r) = loadingAnalysis s /\
  loadingFuzzing (state_after r) = loadingFuzzing s /\
  analysisResult (state_after r) = analysisResult s /\
  fuzzingResult (state_after r) = fuzzingResult s /\
  ((started r = [] /\ loadingContents (state_after r) = loadingContents s) \/
   started r = [ {| request := repo_contents repoUrl None;
                    awaiting := fetchRepoContents_awaiting repoUrl "" |} ]).
Proof.
  handler_unfold. cbn. handler_cases;
    repeat match goal with |- _ /\ _ => split end; auto.
Qed.

Lemma analyzeCode_resumed_effect (outcome : Settled) (s : State) :
  let r := analyzeCode_resumed outcome s in
  loadingAnalysis (state_after r) = false /\
  loading (state_after r) = loading s /\
  loadingFuzzing (state_after r) = loadingFuzzing s /\
  loadingContents (state_after r) = loadingContents s /\
  result (state_after r) = result s /\
  fuzzingResult (state_after r) = fuzzingResult s /\
  started r = [].
Proof.
  handler_unfold. cbn. handler_cases;
    repeat match goal with |- _ /\ _ => split end; auto.
Qed.

Lemma runFuzzingTests_resumed_effect (outcome : Settled) (s : State) :
  let r := runFuzzingTests_resumed outcome s in
  loadingFuzzing (state_after r) = false /\
  loading (state_after r) = loading s /\
  loadingAnalysis (state_after r) = loadingAnalysis s /\
  loadingContents (state_after r) = loadingContents s /\
  result (state_after r) = result s /\
  analysisResult (state_after r) = analysisResult s /\
  started r = [].
Proof.
  handler_unfold. cbn. handler_cases;
    repeat match goal with |- _ /\ _ => split end; auto.
Qed.

Lemma fetchRepoContents_resumed_effect (repoUrl path : string) (outcome : Settled)
  (s : State) :
  let r := fetchRepoContents_resumed repoUrl path outcome s in
  loadingContents (state_after r) = false /\
  loading (state_after r) = loading s /\
  loadingAnalysis (state_after r) = loadingAnalysis s /\
  loadingFuzzing (state_after r) = loadingFuzzing s /\
  result (state_after r) = result s /\
  analysisResult (state_after r) = analysisResult s /\
  fuzzingResult (state_after r) = fuzzingResult s /\
  started r = [].
Proof.
  handler_unfold. cbn. handler_cases;
    repeat match goal with |- _ /\ _ => split end; auto.
Qed.

Ltac flags x :=
  destruct (loading (ui x)) eqn:?, (loadingAnalysis (ui x)) eqn:?,
           (loadingFuzzing (ui x)) eqn:?.

Ltac spinner :=
  intros;
  match goal with
  | H : _ -> loadingContents _ = false |- _ => apply H; lia
  end.

Lemma Consistent_settle (x : Session) (i : nat) (outcome : Settled) (f : Fetch) :
  Consistent x ->
  nth_error (in_flight x) i = Some f ->
  Consistent {| ui := state_after (resume (awaiting f) outcome (ui x));
                in_flight := (remove_nth i (in_flight x)
                              ++ started (resume (awaiting f) outcome (ui x)))%list |}.
Proof.
  intros [H1 H2 H3 H4 H5 H6 H7] Hf. unfold count in *.
  rewrite (count_filter_remove_nth awaits_ingestion _ _ _ Hf) in H1.
  rewrite (count_filter_remove_nth awaits_analysis _ _ _ Hf) in H2.
  rewrite (count_filter_remove_nth awaits_fuzzing _ _ _ Hf) in H3.
  rewrite (count_filter_remove_nth awaits_listing _ _ _ Hf) in H4.
  destruct f as [req k]; destruct k as [url | | | url path];
    cbn in H1, H2, H3, H4; cbn [awaiting resume].
  - destruct (handleSubmit_resumed_effect url outcome (ui x))
      as (E1 & E2 & E3 & E4 & E5 & [[E6 E7] | E6]);
      split; unfold count; cbn [ui in_flight];
      rewrite ?count_filter_app, ?E1, ?E2, ?E3, ?E4, ?E5, ?E6, ?E7; cbn;
      flags x; cbn in *; try lia; try congruence; auto.
  - destruct (analyzeCode_resumed_effect outcome (ui x))
      as (E1 & E2 & E3 & E4 & E5 & E6 & E7);
      split; unfold count; cbn [ui in_flight];
      rewrite ?count_filter_app, ?E1, ?E2, ?E3, ?E4, ?E5, ?E6, ?E7; cbn;
      flags x; cbn in *; try lia; try congruence; auto.
  - destruct (runFuzzingTests_resumed_effect outcome (ui x))
      as (E1 & E2 & E3 & E4 & E5 & E6 & E7);
      split; unfold count; cbn [ui in_flight];
      rewrite ?count_filter_app, ?E1, ?E2, ?E3, ?E4, ?E5, ?E6, ?E7; cbn;
      flags x; cbn in *; try lia; try congruence; auto.
  - destruct (fetchRepoContents_resumed_effect url path outcome (ui x))
      as (E1 & E2 & E3 & E4 & E5 & E6 & E7 & E8);
      split; unfold count; cbn [ui in_flight];
      rewrite ?count_filter_app, ?E1, ?E2, ?E3, ?E4, ?E5, ?E6, ?E7, ?E8; cbn;
      flags x; cbn in *; try lia; try congruence; auto.
Qed.

(** What a handler changes up to its request. *)
Lemma handleSubmit_effect (s : State) :
  let r := handleSubmit s in
  loading (state_after r) = true /\
  result (state_after r) = None /\
  analysisResult (state_after r) = None /\
  loadingAnalysis (state_after r) = loadingAnalysis s /\
  loadingFuzzing (state_after r) = loadingFuzzing s /\
  loadingContents (state_after r) = loadingContents s /\
  fuzzingResult (state_after r) = fuzzingResult s /\
  started r = [ {| request := ingest_repo (repoUrl s);
                   awaiting := handleSubmit_awaiting (repoUrl s) |} ].
Proof. cbv zeta. repeat match goal with |- _ /\ _ => split end; reflexivity. Qed.

Lemma analyzeCode_effect (s : State) :
  let r := analyzeCode s in
  (repoUrl s = "" /\ r = (Normal tt, s, [])) \/
  (repoUrl s <> "" /\
   loadingAnalysis (state_after r) = true /\
   analysisResult (state_after r) = None /\
   error (state_after r) = "" /\
   loading (state_after r) = loading s /\
   loadingFuzzing (state_after r) = loadingFuzzing s /\
   loadingContents (state_after r) = loadingContents s /\
   result (state_after r) = result s /\
   fuzzingResult (state_after r) = fuzzingResult s /\
   started r = [ {| request := analyze_code (repoUrl s);
                    awaiting := analyzeCode_awaiting |} ]).
Proof.
  handler_unfold. destruct (repoUrl s) eqn:E; cbn.
  - left. auto.
  - right. repeat match goal with |- _ /\ _ => split end; auto. discriminate.
Qed.

Lemma runFuzzingTests_effect (s : State) :
  let r := runFuzzingTests s in
  (repoUrl s = "" /\ r = (Normal tt, s, [])) \/
  (repoUrl s <> "" /\
   loadingFuzzing (state_after r) = true /\
   fuzzingResult (state_after r) = None /\
   error (state_after r) = "" /\
   loading (state_after r) = loading s /\
   loadingAnalysis (state_after r) = loadingAnalysis s /\
   loadingContents (state_after r) = loadingContents s /\
   result (state_after r) = result s /\
   analysisResult (state_after r) = analysisResult s /\
   started r = [ {| request := fuzz_test (repoUrl s) (instructionName s)
                                 (timeoutSeconds s);
                    awaiting := runFuzzingTests_awaiting |} ]).
Proof.
  handler_unfold. destruct (repoUrl s) eqn:E; cbn.
  - left. auto.
  - right. repeat match goal with |- _ /\ _ => split end; auto. discriminate.
Qed.

Lemma fetchRepoContents_effect (repoUrl path : string) (s : State) :
  let r := fetchRepoContents repoUrl path s in
  loadingContents (state_after r) = true /\
  loading (state_after r) = loading s /\
  loadingAnalysis (state_after r) = loadingAnalysis s /\
  loadingFuzzing (state_after r) = loadingFuzzing s /\
  result (state_after r) = result s /\
  analysisResult (state_after r) = analysisResult s /\
  fuzzingResult (state_after r) = fuzzingResult s /\
  started r = [ {| request := repo_contents repoUrl
                                 (if truthy path then Some path else None);
                   awaiting := fetchRepoContents_awaiting repoUrl path |} ].
Proof. cbv zeta. repeat match goal with |- _ /\ _ => split end; reflexivity. Qed.

Lemma navigateUp_unfold (s : State) :
  navigateUp s =
    if truthy (currentPath s)
    then fetchRepoContents (repoUrl s) (parentPath (currentPath s)) s
    else (Normal tt, s, []).
Proof. unfold navigateUp, closure. destruct (truthy (currentPath s)); reflexivity. Qed.

(** A user event happens when the page offers its control. *)
Lemma user_step (x y : Session) (e : Event) :
  user_event e = true ->
  step x e = Some y ->
  exists v h,
    render (ui x) = Some v /\ on_event v e = Some h /\
    y = {| ui := state_after (h (ui x));
           in_flight := (in_flight x ++ started (h (ui x)))%list |}.
Proof.
  unfold step. destruct e; try discriminate; intros _;
    (destruct (render (ui x)) as [v|]; [|discriminate]);
    match goal with
    | |- match ?t with _ => _ end = _ -> _ =>
        destruct t as [h|] eqn:Hh; [|discriminate]
    end;
    intros [= <-]; exists v, h; auto.
Qed.

(** The button of an operation is disabled while the operation runs. *)
Lemma on_event_guard (s : State) (v : View) (e : Event) (h : Handler unit) :
  render s = Some v ->
  on_event v e = Some h ->
  match e with
  | submit => loading s = false /\ truthy (repoUrl s) = true
  | click_analyze => loadingAnalysis s = false
  | click_run_fuzz => loadingFuzzing s = false
  | _ => True
  end.
Proof.
  intros Hv. unfold render in Hv.
  destruct (match result s with
            | Some r => option_map Some (renderResult s r)
            | None => Some None
            end) as [card|] eqn:Hcard; [|discriminate].
  injection Hv as <-.
  destruct e; cbn; auto.
  - destruct (loading s); cbn; [discriminate|].
    destruct (truthy (repoUrl s)); [auto | discriminate].
  - unfold offered_controls. cbn.
    destruct (result s) as [r|]; cbn in Hcard.
    + unfold renderResult in Hcard.
      destruct (RepoIngestionResponse.repo r); cbn in Hcard; [|discriminate].
      injection Hcard as <-. cbn.
      destruct (holds (RepoIngestionResponse.is_anchor_project r)); cbn; [|discriminate].
      destruct (loadingAnalysis s); [discriminate | auto].
    + injection Hcard as <-. discriminate.
  - unfold offered_controls. cbn.
    destruct (result s) as [r|]; cbn in Hcard.
    + unfold renderResult in Hcard.
      destruct (RepoIngestionResponse.repo r); cbn in Hcard; [|discriminate].
      injection Hcard as <-. cbn.
      destruct (holds (RepoIngestionResponse.is_anchor_project r)); cbn; [|discriminate].
      destruct (loadingFuzzing s); [discriminate | auto].
    + injection Hcard as <-. discriminate.
Qed.

Lemma Consistent_user (x y : Session) (e : Event) :
  Consistent x -> user_event e = true -> step x e = Some y -> Consistent y.
Proof.
  intros [H1 H2 H3 H4 H5 H6 H7] He Hstep.
  destruct (user_step _ _ _ He Hstep) as (v & h & Hv & Hh & ->).
  pose proof (on_event_guard _ _ _ _ Hv Hh) as Hg.
  apply on_event_cases in Hh. unfold count in *.
  destruct e; try discriminate; try subst h.
  - split; unfold count; cbn; rewrite ?app_nil_r; auto; try spinner.
  - destruct Hg as [Hg _].
    destruct (handleSubmit_effect (ui x)) as (E1 & E2 & E3 & E4 & E5 & E6 & E7 & E8).
    split; unfold count; cbn [ui in_flight];
      rewrite ?count_filter_app, ?E1, ?E2, ?E3, ?E4, ?E5, ?E6, ?E7, ?E8; cbn;
      flags x; cbn in *; try lia; try congruence; auto; try spinner.
  - destruct (analyzeCode_effect (ui x))
      as [[_ E] | (_ & E1 & E2 & _ & E4 & E5 & E6 & E7 & E8 & E9)].
    + rewrite E. split; unfold count; cbn; rewrite ?app_nil_r; auto; try spinner.
    + split; unfold count; cbn [ui in_flight];
        rewrite ?count_filter_app, ?E1, ?E2, ?E4, ?E5, ?E6, ?E7, ?E8, ?E9; cbn;
        flags x; cbn in *; try lia; try congruence; auto; try spinner.
  - split; unfold count; cbn; rewrite ?app_nil_r; auto; try spinner.
  - split; unfold count; cbn; rewrite ?app_nil_r; auto; try spinner.
  - destruct (runFuzzingTests_effect (ui x))
      as [[_ E] | (_ & E1 & E2 & _ & E4 & E5 & E6 & E7 & E8 & E9)].
    + rewrite E. split; unfold count; cbn; rewrite ?app_nil_r; auto; try spinner.
    + split; unfold count; cbn [ui in_flight];
        rewrite ?count_filter_app, ?E1, ?E2, ?E4, ?E5, ?E6, ?E7, ?E8, ?E9; cbn;
        flags x; cbn in *; try lia; try congruence; auto; try spinner.
  - rewrite navigateUp_unfold. destruct (truthy (currentPath (ui x))).
    + destruct (fetchRepoContents_effect (repoUrl (ui x))
                  (parentPath (currentPath (ui x))) (ui x))
        as (E1 & E2 & E3 & E4 & E5 & E6 & E7 & E8).
      split; unfold count; cbn [ui in_flight];
        rewrite ?count_filter_app, ?E1, ?E2, ?E3, ?E4, ?E5, ?E6, ?E7, ?E8; cbn;
        flags x; cbn in *; try lia; try congruence; auto; try spinner.
    + split; unfold count; cbn; rewrite ?app_nil_r; auto; try spinner.
  - destruct Hh as [(path & ->) | ->].
    + change (navigateToPath path (ui x))
        with (fetchRepoContents (repoUrl (ui x)) path (ui x)).
      destruct (fetchRepoContents_effect (repoUrl (ui x)) path (ui x))
        as (E1 & E2 & E3 & E4 & E5 & E6 & E7 & E8).
      split; unfold count; cbn [ui in_flight];
        rewrite ?count_filter_app, ?E1, ?E2, ?E3, ?E4, ?E5, ?E6, ?E7, ?E8; cbn;
        flags x; cbn in *; try lia; try congruence; auto; try spinner.
    + split; unfold count; cbn; rewrite ?app_nil_r; auto; try spinner.
Qed.

Lemma Consistent_step (x y : Session) (e : Event) :
  Consistent x -> step x e = Some y -> Consistent y.
Proof.
  intros Hx Hstep. destruct (user_event e) eqn:He.
  - exact (Consistent_user _ _ _ Hx He Hstep).
  - destruct e; try discriminate. cbn in Hstep.
    destruct (nth_error (in_flight x) index) as [f|] eqn:Hf; [|discriminate].
    injection Hstep as <-. now apply Consistent_settle.
Qed.

Lemma Consistent_run (es : list Event) (x y : Session) :
  Consistent x -> run x es = Some y -> Consistent y.
Proof.
  revert x. induction es as [|e es IH]; intros x Hx; cbn.
  - now intros [= <-].
  - destruct (step x e) as [z|] eqn:Hz; [|discriminate].
    apply IH. exact (Consistent_step _ _ _ Hx Hz).
Qed.

Lemma reachable_Consistent (es : list Event) (x : Session) :
  run start es = Some x -> Consistent x.
Proof. apply Consistent_run, Consistent_start. Qed.

(** X1: in every session reached from the fresh page, at most one
    ingestion, one analysis and one fuzz request is in flight, and the
    loading flag of each operation is set exactly while its request is in
    flight: the submit, analyze and fuzz buttons are disabled by that flag. *)
Theorem one_request_per_operation (es : list Event) (x : Session) :
  run start es = Some x ->
  ((count awaits_ingestion x <= 1)%nat /\
   (loading (ui x) = true <-> count awaits_ingestion x = 1%nat)) /\
  ((count awaits_analysis x <= 1)%nat /\
   (loadingAnalysis (ui x) = true <-> count awaits_analysis x = 1%nat)) /\
  ((count awaits_fuzzing x <= 1)%nat /\
   (loadingFuzzing (ui x) = true <-> count awaits_fuzzing x = 1%nat)).
Proof.
  intros H. destruct (reachable_Consistent _ _ H) as [H1 H2 H3 _ _ _ _].
  rewrite H1, H2, H3.
  destruct (loading (ui x)), (loadingAnalysis (ui x)), (loadingFuzzing (ui x));
    cbn; repeat split; intros; try lia; try congruence.
Qed.

(** X2: in every session reached from the fresh page, [loadingContents] is
    off whenever no listing request is in flight, and when nothing at all is
    in flight all four loading flags are off: every handler resets its flag
    in its [finally]. *)
Theorem idle_page_shows_no_spinner (es : list Event) (x : Session) :
  run start es = Some x ->
  (count awaits_listing x = 0%nat -> loadingContents (ui x) = false) /\
  (in_flight x = [] ->
   loading (ui x) = false /\ loadingAnalysis (ui x) = false /\
   loadingFuzzing (ui x) = false /\ loadingContents (ui x) = false).
Proof.
  intros H. destruct (reachable_Consistent _ _ H) as [H1 H2 H3 H4 _ _ _].
  split; [exact H4|]. intros E. unfold count in *. rewrite E in *. cbn in *.
  destruct (loading (ui x)), (loadingAnalysis (ui x)), (loadingFuzzing (ui x));
    cbn in *; try discriminate. auto.
Qed.

(** X3: in every session reached from the fresh page, while an ingestion,
    an analysis or a fuzz run is loading, its result cell is empty: the
    result of the previous run is cleared when the next one starts and is
    not shown while it runs. *)
Theorem no_result_shown_while_loading (es : list Event) (x : Session) :
  run start es = Some x ->
  (loading (ui x) = true -> result (ui x) = None) /\
  (loadingAnalysis (ui x) = true -> analysisResult (ui x) = None) /\
  (loadingFuzzing (ui x) = true -> fuzzingResult (ui x) = None).
Proof.
  intros H. destruct (reachable_Consistent _ _ H) as [_ _ _ _ H5 H6 H7]. auto.
Qed.

(** X4: no handler lets an error escape.  Whatever way a request settles,
    the handler waiting on it completes normally, and so does every handler
    up to its request: each [throw] is inside a [try] whose [catch] only
    calls setters. *)
Theorem no_error_escapes (k : Suspended) (settled : Settled) (url path : string)
  (s : State) :
  completion (resume k settled s) = Normal tt /\
  completion (handleSubmit s) = Normal tt /\
  completion (analyzeCode s) = Normal tt /\
  completion (runFuzzingTests s) = Normal tt /\
  completion (fetchRepoContents url path s) = Normal tt /\
  completion (navigateToPath path s) = Normal tt /\
  completion (navigateUp s) = Normal tt.
Proof.
  unfold completion. repeat match goal with |- _ /\ _ => split end.
  - destruct k; cbn [resume]; handler_unfold; cbn; handler_cases; reflexivity.
  - reflexivity.
  - handler_unfold. destruct (truthy (repoUrl s)); reflexivity.
  - handler_unfold. destruct (truthy (repoUrl s)); reflexivity.
  - reflexivity.
  - reflexivity.
  - rewrite navigateUp_unfold. destruct (truthy (currentPath s)); reflexivity.
Qed.

(** X5: every failure is reported.  When an ingestion, an analysis, a
    fuzz run or a listing fails, the error it leaves is not empty, also when
    the failure carried an empty message, and the loading flag of the
    operation is off again.  A failed ingestion requests no listing, and a
    failed fuzz run stores no outcome. *)
Theorem every_failure_is_reported (url path : string) (settled : Settled)
  (s : State) :
  (failed_json RepoIngestionResponse.t settled ->
   let r := handleSubmit_resumed url settled s in
   truthy (error (state_after r)) = true /\ loading (state_after r) = false /\
   started r = []) /\
  (failed CodeAnalysisResponse.t settled ->
   let r := analyzeCode_resumed settled s in
   truthy (error (state_after r)) = true /\ loadingAnalysis (state_after r) = false) /\
  (failed_json FuzzingResponse.t settled ->
   let r := runFuzzingTests_resumed settled s in
   truthy (error (state_after r)) = true /\ loadingFuzzing (state_after r) = false /\
   fuzzingResult (state_after r) = fuzzingResult s) /\
  (failed RepoContentsResponse.t settled ->
   let r := fetchRepoContents_resumed url path settled s in
   truthy (error (state_after r)) = true /\ loadingContents (state_after r) = false).
Proof.
  repeat match goal with |- _ /\ _ => split end; cbv zeta.
  - destruct settled as [response | reason]; intros H; handler_unfold; cbn.
    + destruct (JSON_parse (Response.text response)) as [data | message] eqn:Hp; cbn.
      * destruct H as [H | [m H]]; [|congruence]. rewrite H. cbn.
        repeat split. now apply or_else_truthy.
      * repeat split. now apply or_else_truthy.
    + repeat split. now apply or_else_truthy.
  - intros H. destruct (analyzeCode_resumed_failed settled s H) as (err & ->).
    cbn. split; [now apply or_else_truthy | reflexivity].
  - destruct settled as [response | reason]; intros H; handler_unfold; cbn.
    + destruct (Response.ok response) eqn:Hok; cbn.
      * destruct H as [H | [m H]]; [congruence|]. rewrite H. cbn.
        repeat split. now apply or_else_truthy.
      * repeat split. now apply or_else_truthy.
    + repeat split. now apply or_else_truthy.
  - intros H. destruct (fetchRepoContents_resumed_failed url path settled s H)
      as (err & ->).
    cbn. split; [now apply or_else_truthy | reflexivity].
Qed.

(** X6: the text a failed analysis reports.  A non-2xx answer gives its
    body, or [Server error: ] with the status when the body is empty; a 2xx
    answer with an empty or blank body gives [Empty response from server];
    one whose body does not parse gives [Invalid response format from
    server], the message of the parser being dropped.  In each of these the
    fallback result stored for the panel carries the same text as the error.
    A rejected request gives its reason, and for an empty reason two
    different defaults. *)
Theorem analysis_error_texts (settled : Settled) (s : State) :
  let s' := state_after (analyzeCode_resumed settled s) in
  let stored message :=
    analysisResult s' = Some {| CodeAnalysisResponse.success := false;
                                CodeAnalysisResponse.message := message;
                                CodeAnalysisResponse.bugs := Some [] |} in
  (forall response,
     settled = Fulfilled response -> Response.ok response = false ->
     Response.text response <> "" ->
     error s' = Response.text response /\ stored (Response.text response)) /\
  (forall response,
     settled = Fulfilled response -> Response.ok response = false ->
     Response.text response = "" ->
     error s' = "Server error: " ++ decimal (Response.status response) /\
     stored ("Server error: " ++ decimal (Response.status response))) /\
  (forall response,
     settled = Fulfilled response -> Response.ok response = true ->
     Response.text response = "" \/ trim (Response.text response) = "" ->
     error s' = "Empty response from server" /\
     stored "Empty response from server") /\
  (forall response message,
     settled = Fulfilled response -> Response.ok response = true ->
     Response.text response <> "" -> trim (Response.text response) <> "" ->
     JSON_parse (T := CodeAnalysisResponse.t) (Response.text response)
       = SyntaxError message ->
     error s' = "Invalid response format from server" /\
     stored "Invalid response format from server") /\
  (forall reason,
     settled = Rejected reason ->
     error s' = reason ||' "An error occurred during code analysis" /\
     stored (reason ||' "Failed to analyze code")).
Proof.
  cbv zeta. repeat match goal with |- _ /\ _ => split end.
  - intros response -> Hok Htext. handler_unfold. cbn. rewrite Hok. cbn.
    destruct (Response.text response); [congruence|]. split; reflexivity.
  - intros response -> Hok Htext. handler_unfold. cbn. rewrite Hok, Htext. cbn.
    split; reflexivity.
  - intros response -> Hok H. handler_unfold. cbn. rewrite Hok. cbn.
    destruct (truthy (Response.text response)) eqn:Ht; cbn; [|split; reflexivity].
    destruct H as [H | H].
    + rewrite H in Ht. discriminate.
    + rewrite H. cbn. split; reflexivity.
  - intros response message -> Hok Htext Htrim Hparse. handler_unfold. cbn.
    rewrite Hok. cbn. rewrite (truthy_true _ Htext). cbn.
    apply String.eqb_neq in Htrim. rewrite Htrim. cbn. rewrite Hparse. cbn.
    split; reflexivity.
  - intros reason ->. split; reflexivity.
Qed.

(** X7: the text a failed ingestion or fuzz run reports.  [handleSubmit]
    parses the body before it looks at the status: a body that is not JSON
    is reported with the message of the parser, whatever the status, and
    leaves [result] alone; a non-2xx answer that parses is reported with its
    [message] field.  [runFuzzingTests] looks at the status first: a non-2xx
    answer is reported with its body as it is, never parsed, and a 2xx
    answer that does not parse with the message of the parser; neither
    stores an outcome. *)
Theorem ingestion_and_fuzz_error_texts (url : string) (response : Response.t)
  (s : State) :
  let sI := state_after (handleSubmit_resumed url (Fulfilled response) s) in
  let sF := state_after (runFuzzingTests_resumed (Fulfilled response) s) in
  (forall message,
     JSON_parse (T := RepoIngestionResponse.t) (Response.text response)
       = SyntaxError message ->
     error sI = message ||' "An error occurred" /\ result sI = result s) /\
  (forall data,
     JSON_parse (Response.text response) = Value data ->
     Response.ok response = false ->
     error sI = RepoIngestionResponse.message data ||' "Failed to ingest repository") /\
  (Response.ok response = false ->
   error sF = Response.text response ||' "Failed to run fuzzing tests" /\
   fuzzingResult sF = fuzzingResult s) /\
  (forall message,
     Response.ok response = true ->
     JSON_parse (T := FuzzingResponse.t) (Response.text response)
       = SyntaxError message ->
     error sF = message ||' "Failed to run fuzzing tests" /\
     fuzzingResult sF = fuzzingResult s).
Proof.
  cbv zeta. repeat match goal with |- _ /\ _ => split end.
  - intros message H. handler_unfold. cbn. rewrite H. cbn. split; reflexivity.
  - intros data H Hok. handler_unfold. cbn. rewrite H. cbn. rewrite Hok. cbn.
    now apply or_else_twice.
  - intros Hok. handler_unfold. cbn. rewrite Hok. cbn.
    split; [now apply or_else_twice | reflexivity].
  - intros message Hok H. handler_unfold. cbn. rewrite Hok. cbn. rewrite H. cbn.
    split; reflexivity.
Qed.

(** X8: a 2xx ingestion answer that parses is stored as the result and
    the ingestion stops loading; the path and the listing are left alone.
    When [success] and [is_anchor_project] are both true the listing of the
    root is requested for the repository as it was submitted, which clears
    the error; otherwise nothing is requested and the error is not touched:
    a repository that is not an Anchor project is a result, not an error. *)
Theorem ingestion_opens_root_when_eligible (url : string) (response : Response.t)
  (data : RepoIngestionResponse.t) (s : State) :
  Response.ok response = true ->
  JSON_parse (Response.text response) = Value data ->
  let r := handleSubmit_resumed url (Fulfilled response) s in
  let eligible := RepoIngestionResponse.success data
                  && holds (RepoIngestionResponse.is_anchor_project data) in
  result (state_after r) = Some data /\
  loading (state_after r) = false /\
  currentPath (state_after r) = currentPath s /\
  contentsResult (state_after r) = contentsResult s /\
  (eligible = true ->
   started r = [ {| request := repo_contents url None;
                    awaiting := fetchRepoContents_awaiting url "" |} ] /\
   loadingContents (state_after r) = true /\ error (state_after r) = "") /\
  (eligible = false ->
   started r = [] /\
   loadingContents (state_after r) = loadingContents s /\
   error (state_after r) = error s).
Proof.
  intros Hok Hparse. cbv zeta. handler_unfold. cbn. rewrite Hparse. cbn.
  rewrite Hok. cbn.
  destruct (RepoIngestionResponse.success data
            && holds (RepoIngestionResponse.is_anchor_project data)); cbn;
    repeat match goal with |- _ /\ _ => split end;
    try reflexivity; intros; try discriminate;
    repeat match goal with |- _ /\ _ => split end; reflexivity.
Qed.

(** X9: what a settled request stores replaces what was there.  The
    analysis result and the listing stored are the same whatever the state
    held before; the fuzz outcome and the ingestion result depend on the
    earlier state only through the cell itself, which a failure leaves. *)
Theorem stored_results_depend_on_the_response_only (url path : string)
  (settled : Settled) (s1 s2 : State) :
  analysisResult (state_after (analyzeCode_resumed settled s1))
    = analysisResult (state_after (analyzeCode_resumed settled s2)) /\
  contentsResult (state_after (fetchRepoContents_resumed url path settled s1))
    = contentsResult (state_after (fetchRepoContents_resumed url path settled s2)) /\
  (fuzzingResult s1 = fuzzingResult s2 ->
   fuzzingResult (state_after (runFuzzingTests_resumed settled s1))
     = fuzzingResult (state_after (runFuzzingTests_resumed settled s2))) /\
  (result s1 = result s2 ->
   result (state_after (handleSubmit_resumed url settled s1))
     = result (state_after (handleSubmit_resumed url settled s2))).
Proof.
  repeat match goal with |- _ /\ _ => split end; try intros H;
    handler_unfold; cbn; handler_cases; (reflexivity || exact H).
Qed.

(** X10: an empty directory is not a failure.  A listing that arrives with
    no entries is shown as a listing panel with no rows and the empty
    notice, and the error is left alone.  A listing that fails stores a
    record with neither entries nor a file, so no listing panel and no file
    panel are shown, beside a non-empty error; the up button and the rows are
    gone, and neither click can happen. *)
Theorem empty_directory_is_not_a_failure (url path : string) (settled : Settled)
  (s : State) :
  let s' := state_after (fetchRepoContents_resumed url path settled s) in
  (forall data,
     delivers settled data ->
     RepoContentsResponse.contents data = Some [] ->
     contentsResult s' = Some data /\
     renderListing s' data
       = Some {| upDisabled := negb (truthy path); pathLabel := "/" ++ path;
                 rows := []; emptyNotice := true |} /\
     renderError s' = renderError s) /\
  (failed RepoContentsResponse.t settled ->
   (exists r, contentsResult s' = Some r /\ renderListing s' r = None /\
              renderFile r = None) /\
   (exists banner, renderError s' = Some banner) /\
   forall (waiting : list Fetch) (i : nat),
     step {| ui := s'; in_flight := waiting |} click_up = None /\
     step {| ui := s'; in_flight := waiting |} (click_row i) = None).
Proof.
  cbv zeta. split.
  - intros data Hd Hc. rewrite (fetchRepoContents_resumed_delivers _ _ _ _ _ Hd).
    unfold state_after, renderListing. cbn. rewrite Hc. auto.
  - intros Hf. destruct (fetchRepoContents_resumed_failed url path settled s Hf)
      as (err & ->).
    unfold state_after. cbn [fst snd]. split; [|split].
    + eexists. split; [reflexivity|]. split; reflexivity.
    + unfold renderError. cbn.
      rewrite (or_else_truthy err "An error occurred while fetching contents" eq_refl).
      eexists. reflexivity.
    + intros waiting i. unfold step. cbn [ui].
      destruct (render _) as [v|] eqn:Hv; [|split; reflexivity].
      unfold render in Hv. cbn in Hv.
      destruct (match result s with
                | Some r => _
                | None => _
                end); [|discriminate].
      injection Hv as <-. split; reflexivity.
Qed.

Lemma render_setRepoUrl (u : string) (s : State) (v : View) :
  render s = Some v ->
  exists v',
    render (setRepoUrl u s) = Some v' /\
    resultCard v' = resultCard v /\ listingPanel v' = listingPanel v.
Proof.
  unfold render.
  change (result (setRepoUrl u s)) with (result s).
  destruct (result s) as [r|]; cbn.
  - change (renderResult (setRepoUrl u s) r) with (renderResult s r).
    destruct (renderResult s r); cbn; [|discriminate].
    intros [= <-]. eexists. split; [reflexivity|]. split; reflexivity.
  - intros [= <-]. eexists. split; [reflexivity|]. split; reflexivity.
Qed.

Lemma step_change_repoUrl (x : Session) (u : string) (v : View) :
  render (ui x) = Some v ->
  step x (change_repoUrl u)
    = Some {| ui := setRepoUrl u (ui x); in_flight := in_flight x |}.
Proof. intros H. unfold step. rewrite H. cbn. now rewrite app_nil_r. Qed.

(** X11: the operations act on the URL field, not on the repository that
    was ingested.  With the controls on the page, typing another URL and
    pressing Analyze or Run Fuzz Tests sends the request for the typed URL,
    and clicking a directory row requests the listing of that path in the
    typed URL, empty or not; the result card still shows the repository
    ingested before. *)
Theorem operations_act_on_the_url_field (x : Session) (u : string) (v : View)
  (c : PipelineControls) :
  render (ui x) = Some v ->
  offered_controls v = Some c ->
  (truthy u = true -> analyzeDisabled c = false ->
   exists y,
     run x [change_repoUrl u; click_analyze] = Some y /\
     in_flight y = (in_flight x ++ [ {| request := analyze_code u;
                                        awaiting := analyzeCode_awaiting |} ])%list /\
     result (ui y) = result (ui x)) /\
  (truthy u = true -> runFuzzDisabled c = false ->
   exists y,
     run x [change_repoUrl u; click_run_fuzz] = Some y /\
     in_flight y = (in_flight x
                    ++ [ {| request := fuzz_test u (instructionName (ui x))
                                         (timeoutSeconds (ui x));
                            awaiting := runFuzzingTests_awaiting |} ])%list /\
     result (ui y) = result (ui x)) /\
  (forall p i item,
     listingPanel v = Some p ->
     nth_error (rows p) i = Some item ->
     GitHubContent.content_type item = "dir" ->
     exists y,
       run x [change_repoUrl u; click_row i] = Some y /\
       in_flight y
         = (in_flight x
            ++ [ {| request := repo_contents u
                                 (if truthy (GitHubContent.path item)
                                  then Some (GitHubContent.path item) else None);
                    awaiting := fetchRepoContents_awaiting u
                                  (GitHubContent.path item) |} ])%list /\
       result (ui y) = result (ui x)).
Proof.
  intros Hv Hc.
  destruct (render_setRepoUrl u _ _ Hv) as (v' & Hv' & Hcard & Hlist).
  assert (Hc' : offered_controls v' = Some c)
    by (unfold offered_controls in *; now rewrite Hcard).
  repeat match goal with |- _ /\ _ => split end.
  - intros Hu Hd. cbn [run]. rewrite (step_change_repoUrl _ _ _ Hv).
    unfold step. cbn [ui in_flight]. rewrite Hv'. cbn [on_event].
    rewrite Hc', Hd.
    eexists. split; [reflexivity|]. cbn [ui in_flight].
    unfold analyzeCode, closure. cbn [repoUrl setRepoUrl]. rewrite Hu.
    split; reflexivity.
  - intros Hu Hd. cbn [run]. rewrite (step_change_repoUrl _ _ _ Hv).
    unfold step. cbn [ui in_flight]. rewrite Hv'. cbn [on_event].
    rewrite Hc', Hd.
    eexists. split; [reflexivity|]. cbn [ui in_flight].
    unfold runFuzzingTests, closure. cbn [repoUrl setRepoUrl]. rewrite Hu.
    split; reflexivity.
  - intros p i item Hp Hi Hdir. cbn [run]. rewrite (step_change_repoUrl _ _ _ Hv).
    unfold step. cbn [ui in_flight]. rewrite Hv'. cbn [on_event].
    rewrite Hlist, Hp, Hi, Hdir. cbn.
    eexists. split; [reflexivity|]. split; reflexivity.
Qed.

Lemma split_segments_free (sep : ascii) (s : string) :
  Forall (fun seg => contains sep seg = false) (split sep s).
Proof.
  induction s as [|c rest IH]; cbn.
  - repeat constructor.
  - destruct (Ascii.eqb c sep) eqn:E.
    + constructor; [reflexivity | exact IH].
    + destruct (split sep rest) as [|seg segs]; inversion IH; subst.
      * repeat constructor. cbn. now rewrite E.
      * constructor; [cbn; now rewrite E | assumption].
  Unshelve. all: exact EmptyString.
Qed.

Lemma split_after_free_segment (sep : ascii) (seg rest : string) :
  contains sep seg = false ->
  split sep (seg ++ String sep rest) = seg :: split sep rest.
Proof.
  induction seg as [|c seg IH]; cbn; intros H.
  - now rewrite Ascii.eqb_refl.
  - apply orb_false_iff in H as [Hc Hseg]. rewrite Hc, (IH Hseg). reflexivity.
Qed.

Lemma split_join (sep : ascii) (segs : list string) :
  segs <> [] ->
  Forall (fun seg => contains sep seg = false) segs ->
  split sep (join sep segs) = segs.
Proof.
  induction segs as [|seg segs IH]; [congruence|]. intros _ H.
  inversion H as [|? ? Hseg Hsegs]; subst.
  destruct segs as [|seg' segs].
  - cbn. now apply split_without_separator.
  - rewrite join_cons, (split_after_free_segment _ _ _ Hseg), IH; [reflexivity| |assumption].
    discriminate.
Qed.

Lemma parentPath_join (segs : list string) (seg : string) :
  Forall (fun seg => contains "/" seg = false) (segs ++ [seg]) ->
  parentPath (join "/" (segs ++ [seg])) = join "/" segs.
Proof.
  intros H. unfold parentPath, pop. rewrite split_join; [|now destruct segs|assumption].
  now rewrite removelast_last.
Qed.

Lemma parentPath_chain (segs : list string) :
  Forall (fun seg => contains "/" seg = false) segs ->
  Nat.iter (length segs) parentPath (join "/" segs) = "".
Proof.
  induction segs as [|seg segs IH] using rev_ind; intros H; [reflexivity|].
  rewrite List.length_app, Nat.add_comm. cbn [length Nat.add].
  rewrite Nat.iter_succ_r, (parentPath_join _ _ H).
  apply IH. apply Forall_app in H. tauto.
Qed.

Lemma append_assoc (a b c : string) : (a ++ b) ++ c = a ++ (b ++ c).
Proof. induction a as [|x a IH]; cbn; [reflexivity | now rewrite IH]. Qed.

Lemma join_cons_nonempty (sep : ascii) (a : string) (l : list string) :
  l <> [] -> join sep (a :: l) = a ++ String sep (join sep l).
Proof. destruct l; [congruence | reflexivity]. Qed.

Lemma join_last (sep : ascii) (segs : list string) (seg : string) :
  join sep (segs ++ [seg]) =
    match segs with
    | [] => seg
    | _ => join sep segs ++ String sep seg
    end.
Proof.
  induction segs as [|a segs IH]; [reflexivity|].
  change ((a :: segs) ++ [seg])%list with (a :: (segs ++ [seg]))%list.
  rewrite join_cons_nonempty by (destruct segs; cbn; congruence). rewrite IH.
  destruct segs as [|b segs]; [reflexivity|].
  rewrite (join_cons_nonempty sep a (b :: segs)) by congruence.
  rewrite append_assoc. reflexivity.
Qed.

Lemma parentPath_prefix (p : string) :
  exists rest, p = parentPath p ++ rest /\ (p <> "" -> rest <> "").
Proof.
  pose proof (join_split "/" p) as Hp.
  pose proof (split_segments_free "/" p) as Hfree.
  destruct (split_nonempty "/" p) as (seg0 & segs0 & E).
  assert (Hne : split "/" p <> []) by (rewrite E; discriminate).
  destruct (exists_last Hne) as (segs & seg & Hs).
  rewrite Hs in Hp, Hfree. clear E Hne Hs. subst p.
  rewrite (parentPath_join _ _ Hfree), join_last.
  destruct segs as [|a segs].
  - exists seg. split; [reflexivity | auto].
  - exists (String "/" seg). split; [reflexivity | discriminate].
Qed.

(** X12: the path [navigateUp] asks for is a prefix of the current path,
    and a proper one unless the current path is the root; going up as many
    times as the path has segments ends at the root. *)
Theorem up_navigation_reaches_the_root (p : string) :
  (exists rest, p = parentPath p ++ rest /\ (p <> "" -> rest <> "")) /\
  Nat.iter (length (split "/" p)) parentPath p = "" /\
  (forall s : State,
     currentPath s = p -> p <> "" ->
     requests (navigateUp s)
       = [repo_contents (repoUrl s)
            (if truthy (parentPath p) then Some (parentPath p) else None)] /\
     currentPath (state_after (navigateUp s)) = p).
Proof.
  split; [apply parentPath_prefix|]. split.
  - rewrite <- (join_split "/" p) at 2.
    apply parentPath_chain, split_segments_free.
  - intros s Hs Hp. rewrite navigateUp_unfold, Hs, (truthy_true _ Hp).
    split; [reflexivity | exact Hs].
Qed.

(** X13: going up undoes going down.  From a listing at some path, after
    the row of a child directory (the path extended by one segment) is opened
    and its listing has arrived, [navigateUp] asks for the listing of the
    path the user came from. *)
Theorem up_undoes_down (s : State) (name : string) (settled : Settled)
  (data : RepoContentsResponse.t) :
  contains "/" name = false ->
  name <> "" ->
  delivers settled data ->
  let child := if truthy (currentPath s) then currentPath s ++ "/" ++ name else name in
  let s1 := state_after (navigateToPath child s) in
  let s2 := state_after (fetchRepoContents_resumed (repoUrl s) child settled s1) in
  currentPath s2 = child /\
  contentsResult s2 = Some data /\
  requests (navigateUp s2)
    = [repo_contents (repoUrl s)
         (if truthy (currentPath s) then Some (currentPath s) else None)].
Proof.
  intros Hfree Hname Hd child s1 s2.
  assert (Hchild : truthy child = true /\ parentPath child = currentPath s).
  { unfold child, parentPath. destruct (truthy (currentPath s)) eqn:Hp.
    - split; [destruct (currentPath s); reflexivity|].
      change ("/" ++ name) with (String "/" name).
      now apply pop_last_segment.
    - split; [now apply truthy_true|].
      rewrite (pop_only_segment _ _ Hfree).
      destruct (currentPath s); [reflexivity | discriminate]. }
  assert (Hs2 : s2 = setLoadingContents false
                       (setCurrentPath child (setContentsResult (Some data) s1))).
  { unfold s2. now rewrite (fetchRepoContents_resumed_delivers _ _ _ _ _ Hd). }
  rewrite Hs2. split; [reflexivity|]. split; [reflexivity|].
  rewrite navigateUp_unfold.
  change (currentPath (setLoadingContents false
            (setCurrentPath child (setContentsResult (Some data) s1)))) with child.
  change (repoUrl (setLoadingContents false
            (setCurrentPath child (setContentsResult (Some data) s1))))
    with (repoUrl s).
  destruct Hchild as [-> ->]. reflexivity.
Qed.

(** X15: with the URL field empty, [analyzeCode] and [runFuzzingTests]
    do nothing at all: no flag, no request.  [navigateToPath] has no such
    test: it requests a listing with an empty [repo_url].  With a URL in the
    field each of the two sends exactly one request, for that URL. *)
Theorem nothing_is_sent_without_a_url (s : State) :
  (repoUrl s = "" ->
   analyzeCode s = (Normal tt, s, []) /\
   runFuzzingTests s = (Normal tt, s, []) /\
   forall path,
     requests (navigateToPath path s)
       = [repo_contents "" (if truthy path then Some path else None)]) /\
  (repoUrl s <> "" ->
   requests (analyzeCode s) = [analyze_code (repoUrl s)] /\
   requests (runFuzzingTests s)
     = [fuzz_test (repoUrl s) (instructionName s) (timeoutSeconds s)]).
Proof.
  split.
  - intros H. unfold analyzeCode, runFuzzingTests, navigateToPath, closure.
    rewrite H. cbn. auto.
  - intros H. unfold analyzeCode, runFuzzingTests, closure.
    rewrite (truthy_true _ H). split; reflexivity.
Qed.

End SessionFacts.

Lemma tenths_bounds (num den : Z) :
  (0 < den)%Z ->
  (- den < 2 * den * tenths num den - 20 * num <= den)%Z.
Proof.
  intros Hden. unfold tenths.
  pose proof (Z.mul_div_le (20 * num + den) (2 * den) ltac:(lia)).
  pose proof (Z.mul_succ_div_gt (20 * num + den) (2 * den) ltac:(lia)).
  lia.
Qed.

(** X14: [formatFileSize] shows an unknown size as such and a size below
    1024 as the bytes themselves.  From 1024 up it shows kilobytes, and from
    1024 * 1024 up megabytes, rounded to the nearest tenth of the unit.  The
    unit is chosen before the rounding: the sizes from 1048525 to 1048575
    read [1024.0 KB]. *)
Theorem formatFileSize_units_and_rounding :
  formatFileSize None = "Unknown size" /\
  (forall b, (- 2 ^ 53 < b < 1024)%Z -> formatFileSize (Some b) = integer b ++ " B") /\
  (forall b, (1024 <= b < 1024 * 1024)%Z ->
     exists n,
       (10 <= n <= 10240)%Z /\ (- 512 < 1024 * n - 10 * b <= 512)%Z /\
       formatFileSize (Some b)
         = (integer (n / 10) ++ "." ++ integer (n mod 10)) ++ " KB") /\
  (forall b, (1048525 <= b < 1024 * 1024)%Z ->
     formatFileSize (Some b) = "1024.0 KB") /\
  (forall b, (1024 * 1024 <= b < 2 ^ 53)%Z ->
     exists n,
       (10 <= n)%Z /\ (- 524288 < 1048576 * n - 10 * b <= 524288)%Z /\
       formatFileSize (Some b)
         = (integer (n / 10) ++ "." ++ integer (n mod 10)) ++ " MB").
Proof.
  split; [reflexivity|]. split; [|split; [|split]].
  - intros b Hb. unfold formatFileSize.
    destruct (Z.ltb_spec b 1024); [reflexivity | lia].
  - intros b Hb. exists (tenths b 1024).
    pose proof (tenths_bounds b 1024 ltac:(lia)).
    split; [lia|]. split; [lia|].
    unfold formatFileSize.
    destruct (Z.ltb_spec b 1024); [lia|].
    destruct (Z.ltb_spec b (1024 * 1024)); [reflexivity | lia].
  - intros b Hb.
    pose proof (tenths_bounds b 1024 ltac:(lia)).
    assert (E : tenths b 1024 = 10240%Z) by lia.
    unfold formatFileSize, toFixed_1.
    destruct (Z.ltb_spec b 1024); [lia|].
    destruct (Z.ltb_spec b (1024 * 1024)); [|lia].
    rewrite E. reflexivity.
  - intros b Hb. exists (tenths b (1024 * 1024)).
    pose proof (tenths_bounds b (1024 * 1024) ltac:(lia)).
    split; [lia|]. split; [lia|].
    unfold formatFileSize.
    destruct (Z.ltb_spec b 1024); [lia|].
    destruct (Z.ltb_spec b (1024 * 1024)); [lia | reflexivity].
Qed.

(** ** Answers that arrive after a new submission *)

Section LateAnswers.

Context {json_ingestion : JSON RepoIngestionResponse.t}.
Context {json_analysis : JSON CodeAnalysisResponse.t}.
Context {json_fuzzing : JSON FuzzingResponse.t}.
Context {json_contents : JSON RepoContentsResponse.t}.

Lemma render_setRepoUrl_form (u : string) (s : State) (v : View) :
  render s = Some v ->
  exists v',
    render (setRepoUrl u s) = Some v' /\
    submitDisabled v' = loading s /\ repoUrlValue v' = u.
Proof.
  unfold render.
  change (result (setRepoUrl u s)) with (result s).
  destruct (result s) as [r|]; cbn.
  - change (renderResult (setRepoUrl u s) r) with (renderResult s r).
    destruct (renderResult s r); cbn; [|discriminate].
    intros _. eexists. split; [reflexivity|]. split; reflexivity.
  - intros _. eexists. split; [reflexivity|]. split; reflexivity.
Qed.

Lemma submit_after_typing (x : Session) (u : string) (v : View) :
  render (ui x) = Some v ->
  loading (ui x) = false ->
  truthy u = true ->
  run x [change_repoUrl u; submit]
    = Some {| ui := state_after (handleSubmit (setRepoUrl u (ui x)));
              in_flight := (in_flight x
                            ++ [ {| request := ingest_repo u;
                                    awaiting := handleSubmit_awaiting u |} ])%list |}.
Proof.
  intros Hv Hl Hu. cbn [run]. rewrite (step_change_repoUrl _ _ _ Hv).
  destruct (render_setRepoUrl_form u _ _ Hv) as (v' & Hv' & Hd & Hval).
  unfold step. cbn [ui in_flight]. rewrite Hv'. cbn [on_event].
  rewrite Hd, Hval, Hl, Hu. reflexivity.
Qed.

(** X17: a new submission does not call off what is running.  With an
    analysis or a fuzz run in flight, the user types another URL and
    submits; when the answer of the earlier run arrives it is stored, and
    shown, in the session of the new repository, whose own ingestion is
    still loading. *)
Theorem running_operations_outlive_a_submission (x : Session) (v : View) (i : nat)
  (f : Fetch) (u : string) (settled : Settled) :
  render (ui x) = Some v ->
  loading (ui x) = false ->
  truthy u = true ->
  nth_error (in_flight x) i = Some f ->
  exists y,
    run x [change_repoUrl u; submit; settle i settled] = Some y /\
    repoUrl (ui y) = u /\
    (awaiting f = analyzeCode_awaiting ->
     loading (ui y) = true /\ result (ui y) = None /\
     forall data, delivers settled data -> analysisResult (ui y) = Some data) /\
    (awaiting f = runFuzzingTests_awaiting ->
     loading (ui y) = true /\ result (ui y) = None /\
     forall response data,
       settled = Fulfilled response -> Response.ok response = true ->
       JSON_parse (Response.text response) = Value data ->
       fuzzingResult (ui y) = Some data).
Proof.
  intros Hv Hl Hu Hf.
  pose proof (submit_after_typing x u v Hv Hl Hu) as Hrun.
  cbn [run] in Hrun |- *.
  destruct (step x (change_repoUrl u)) as [x1|]; [|discriminate].
  destruct (step x1 submit) as [x2|]; [|discriminate].
  injection Hrun as ->.
  erewrite step_settle by (cbn [in_flight]; apply nth_error_app_left; exact Hf).
  eexists. split; [reflexivity|]. cbn [ui in_flight].
  split; [|split].
  - destruct (awaiting f); cbn [resume]; handler_unfold; cbn; handler_cases;
      reflexivity.
  - intros ->. cbn [resume].
    destruct (analyzeCode_resumed_effect settled
                (state_after (handleSubmit (setRepoUrl u (ui x)))))
      as (_ & E2 & _ & _ & E5 & _).
    rewrite E2, E5. split; [reflexivity|]. split; [reflexivity|].
    intros data Hd. now rewrite (analyzeCode_resumed_delivers _ _ _ Hd).
  - intros ->. cbn [resume].
    destruct (runFuzzingTests_resumed_effect settled
                (state_after (handleSubmit (setRepoUrl u (ui x)))))
      as (_ & E2 & _ & _ & E5 & _).
    rewrite E2, E5. split; [reflexivity|]. split; [reflexivity|].
    intros response data -> Hok Hparse. handler_unfold. cbn.
    rewrite Hok. cbn. rewrite Hparse. reflexivity.
Qed.

End LateAnswers.

(** ** Concrete sessions for the properties above *)

Lemma one_request_per_operation_witness :
  let x := session_after fuzz_in_flight in
  ((count awaits_ingestion x <= 1)%nat /\
   (loading (ui x) = true <-> count awaits_ingestion x = 1%nat)) /\
  ((count awaits_analysis x <= 1)%nat /\
   (loadingAnalysis (ui x) = true <-> count awaits_analysis x = 1%nat)) /\
  ((count awaits_fuzzing x <= 1)%nat /\
   (loadingFuzzing (ui x) = true <-> count awaits_fuzzing x = 1%nat)).
Proof.
  apply (@one_request_per_operation
           scenario_ingestion scenario_analysis scenario_fuzzing scenario_contents
           fuzz_in_flight (session_after fuzz_in_flight)).
  vm_compute. reflexivity.
Defined.

Lemma idle_page_shows_no_spinner_witness :
  let x := session_after open_root in
  (count awaits_listing x = 0%nat -> loadingContents (ui x) = false) /\
  (in_flight x = [] ->
   loading (ui x) = false /\ loadingAnalysis (ui x) = false /\
   loadingFuzzing (ui x) = false /\ loadingContents (ui x) = false).
Proof.
  apply (@idle_page_shows_no_spinner
           scenario_ingestion scenario_analysis scenario_fuzzing scenario_contents
           open_root (session_after open_root)).
  vm_compute. reflexivity.
Defined.

Lemma no_result_shown_while_loading_witness :
  let x := session_after (open_root ++ [click_analyze; click_run_fuzz]) in
  (loading (ui x) = true -> result (ui x) = None) /\
  (loadingAnalysis (ui x) = true -> analysisResult (ui x) = None) /\
  (loadingFuzzing (ui x) = true -> fuzzingResult (ui x) = None).
Proof.
  apply (@no_result_shown_while_loading
           scenario_ingestion scenario_analysis scenario_fuzzing scenario_contents
           (open_root ++ [click_analyze; click_run_fuzz])
           (session_after (open_root ++ [click_analyze; click_run_fuzz]))).
  vm_compute. reflexivity.
Defined.

Lemma every_failure_is_reported_witness :
  let r := analyzeCode_resumed (json_analysis := scenario_analysis)
             (Rejected "") initial in
  truthy (error (state_after r)) = true /\ loadingAnalysis (state_after r) = false.
Proof.
  apply (proj1 (proj2 (@every_failure_is_reported
                         scenario_ingestion scenario_analysis scenario_fuzzing
                         scenario_contents vault_url "" (Rejected "") initial))).
  exact I.
Defined.

Lemma analysis_error_texts_witness :
  let s' := state_after
              (analyzeCode_resumed (json_analysis := scenario_analysis)
                 (Fulfilled (bad_gateway "")) initial) in
  error s' = "Server error: " ++ decimal 502 /\
  analysisResult s'
    = Some {| CodeAnalysisResponse.success := false;
              CodeAnalysisResponse.message := "Server error: " ++ decimal 502;
              CodeAnalysisResponse.bugs := Some [] |}.
Proof.
  apply (proj1 (proj2 (@analysis_error_texts scenario_analysis
                         (Fulfilled (bad_gateway "")) initial))
           (bad_gateway "")); reflexivity.
Defined.

Lemma ingestion_and_fuzz_error_texts_witness :
  let sI := state_after
              (handleSubmit_resumed (json_ingestion := scenario_ingestion) vault_url
                 (Fulfilled (bad_gateway "<html>Bad Gateway</html>")) initial) in
  error sI = "Unexpected token in JSON" ||' "An error occurred" /\
  result sI = result initial.
Proof.
  apply (proj1 (@ingestion_and_fuzz_error_texts scenario_ingestion scenario_fuzzing
                  vault_url (bad_gateway "<html>Bad Gateway</html>") initial)
           "Unexpected token in JSON").
  vm_compute. reflexivity.
Defined.

Lemma ingestion_opens_root_when_eligible_witness :
  let r := handleSubmit_resumed (json_ingestion := scenario_ingestion) docs_url
             (answer not_anchor_body) initial in
  let eligible := RepoIngestionResponse.success not_anchor
                  && holds (RepoIngestionResponse.is_anchor_project not_anchor) in
  result (state_after r) = Some not_anchor /\
  loading (state_after r) = false /\
  currentPath (state_after r) = currentPath initial /\
  contentsResult (state_after r) = contentsResult initial /\
  (eligible = true ->
   started r = [ {| request := repo_contents docs_url None;
                    awaiting := fetchRepoContents_awaiting docs_url "" |} ] /\
   loadingContents (state_after r) = true /\ error (state_after r) = "") /\
  (eligible = false ->
   started r = [] /\
   loadingContents (state_after r) = loadingContents initial /\
   error (state_after r) = error initial).
Proof.
  apply (@ingestion_opens_root_when_eligible scenario_ingestion docs_url
           {| Response.status := 200; Response.text := not_anchor_body |}
           not_anchor initial).
  - reflexivity.
  - vm_compute. reflexivity.
Defined.

Lemma stored_results_depend_on_the_response_only_witness :
  fuzzingResult
    (state_after (runFuzzingTests_resumed (json_fuzzing := scenario_fuzzing)
                    (answer fuzzed_body) initial))
  = fuzzingResult
      (state_after (runFuzzingTests_resumed (json_fuzzing := scenario_fuzzing)
                      (answer fuzzed_body) in_src)).
Proof.
  apply (proj1 (proj2 (proj2 (@stored_results_depend_on_the_response_only
                                scenario_ingestion scenario_analysis scenario_fuzzing
                                scenario_contents vault_url ""
                                (answer fuzzed_body) initial in_src)))).
  reflexivity.
Defined.

Lemma answer_delivers_empty_listing :
  delivers (P := scenario_contents) (answer (listing_body "b" [])) (listing "b" []).
Proof.
  exists {| Response.status := 200; Response.text := listing_body "b" [] |}.
  conjuncts; vm_compute; first [reflexivity | discriminate].
Defined.

Lemma empty_directory_is_not_a_failure_witness :
  let s' := state_after
              (fetchRepoContents_resumed (json_contents := scenario_contents)
                 vault_url "b" (answer (listing_body "b" [])) initial) in
  contentsResult s' = Some (listing "b" []) /\
  renderListing s' (listing "b" [])
    = Some {| upDisabled := negb (truthy "b"); pathLabel := "/" ++ "b";
              rows := []; emptyNotice := true |} /\
  renderError s' = renderError initial.
Proof.
  apply (proj1 (@empty_directory_is_not_a_failure
                  scenario_ingestion scenario_analysis scenario_fuzzing
                  scenario_contents vault_url "b"
                  (answer (listing_body "b" [])) initial)
           (listing "b" [])).
  - exact answer_delivers_empty_listing.
  - reflexivity.
Defined.

Lemma operations_act_on_the_url_field_witness :
  exists y,
    scenario_run (session_after open_root) [change_repoUrl docs_url; click_analyze]
      = Some y /\
    in_flight y = (in_flight (session_after open_root)
                   ++ [ {| request := analyze_code docs_url;
                           awaiting := analyzeCode_awaiting |} ])%list /\
    result (ui y) = result (ui (session_after open_root)).
Proof.
  apply (proj1 (@operations_act_on_the_url_field
                  scenario_ingestion scenario_analysis scenario_fuzzing
                  scenario_contents (session_after open_root) docs_url root_view
                  (renderControls (ui (session_after open_root)))
                  ltac:(vm_compute; reflexivity) ltac:(vm_compute; reflexivity)));
    reflexivity.
Defined.

Lemma up_navigation_reaches_the_root_witness :
  requests (navigateUp in_src)
    = [repo_contents (repoUrl in_src)
         (if truthy (parentPath "programs/vault/src")
          then Some (parentPath "programs/vault/src") else None)] /\
  currentPath (state_after (navigateUp in_src)) = "programs/vault/src".
Proof.
  apply (proj2 (proj2 (up_navigation_reaches_the_root "programs/vault/src")) in_src).
  - reflexivity.
  - discriminate.
Defined.

Lemma up_undoes_down_witness :
  let s := setRepoUrl vault_url initial in
  let child := if truthy (currentPath s) then currentPath s ++ "/" ++ "a" else "a" in
  let s1 := state_after (navigateToPath child s) in
  let s2 := state_after
              (fetchRepoContents_resumed (json_contents := scenario_contents)
                 (repoUrl s) child (answer (listing_body "a" ["a/src"])) s1) in
  currentPath s2 = child /\
  contentsResult s2 = Some (listing "a" ["a/src"]) /\
  requests (navigateUp s2)
    = [repo_contents (repoUrl s)
         (if truthy (currentPath s) then Some (currentPath s) else None)].
Proof.
  apply (@up_undoes_down scenario_contents (setRepoUrl vault_url initial) "a"
           (answer (listing_body "a" ["a/src"])) (listing "a" ["a/src"])).
  - reflexivity.
  - discriminate.
  - exact answer_delivers_listing.
Defined.

Lemma formatFileSize_units_and_rounding_witness :
  formatFileSize (Some 1048575%Z) = "1024.0 KB" /\
  formatFileSize (Some 1023%Z) = integer 1023 ++ " B".
Proof.
  split.
  - apply (proj1 (proj2 (proj2 (proj2 formatFileSize_units_and_rounding)))). lia.
  - apply (proj1 (proj2 formatFileSize_units_and_rounding)). lia.
Defined.

Lemma nothing_is_sent_without_a_url_witness :
  analyzeCode initial = (Normal tt, initial, []) /\
  runFuzzingTests initial = (Normal tt, initial, []) /\
  forall path,
    requests (navigateToPath path initial)
      = [repo_contents "" (if truthy path then Some path else None)].
Proof.
  apply (proj1 (nothing_is_sent_without_a_url initial)). reflexivity.
Defined.


(** Some sizes as the page shows them. *)
Example formatFileSize_samples :
  map formatFileSize [None; Some 0; Some 1023; Some 1024; Some 1280; Some 1536;
                      Some 1048524; Some 1048576; Some 5000000]%Z
  = ["Unknown size"; "0 B"; "1023 B"; "1.0 KB"; "1.3 KB"; "1.5 KB";
     "1023.9 KB"; "1.0 MB"; "4.8 MB"].
Proof. vm_compute. reflexivity. Qed.

Lemma running_operations_outlive_a_submission_witness :
  exists y,
    scenario_run (session_after fuzz_in_flight)
      [change_repoUrl docs_url; submit; settle 0 (answer fuzzed_body)] = Some y /\
    repoUrl (ui y) = docs_url /\
    (runFuzzingTests_awaiting = analyzeCode_awaiting ->
     loading (ui y) = true /\ result (ui y) = None /\
     forall data,
       delivers (P := scenario_analysis) (answer fuzzed_body) data ->
       analysisResult (ui y) = Some data) /\
    (runFuzzingTests_awaiting = runFuzzingTests_awaiting ->
     loading (ui y) = true /\ result (ui y) = None /\
     forall response data,
       answer fuzzed_body = Fulfilled response -> Response.ok response = true ->
       scenario_fuzzing (Response.text response) = Value data ->
       fuzzingResult (ui y) = Some data).
Proof.
  apply (@running_operations_outlive_a_submission
           scenario_ingestion scenario_analysis scenario_fuzzing scenario_contents
           (session_after fuzz_in_flight)
           (view_of (ui (session_after fuzz_in_flight))) 0
           {| request := fuzz_test vault_url "increment" 60;
              awaiting := runFuzzingTests_awaiting |}
           docs_url (answer fuzzed_body)).
  - vm_compute. reflexivity.
  - vm_compute. reflexivity.
  - reflexivity.
  - vm_compute. reflexivity.
Defined.

(** The fuzz outcome of the first repository, beside the second one loading. *)
Example late_fuzz_outcome_is_shown :
  let y := scenario_run start
             (fuzz_in_flight
              ++ [change_repoUrl docs_url; submit; settle 0 (answer fuzzed_body)]) in
  at_end fuzzingResult y = Some (Some fuzzed) /\
  at_end repoUrl y = Some docs_url /\
  at_end loading y = Some true /\
  pending y = Some [ingest_repo docs_url].
Proof. by_evaluation. Qed.
